(** * sensirion_i2c_driver: the connection layer and the MicroPython transceiver

    A shallow embedding of [connection.py] (class [I2cConnection]) and of
    [micropython_i2c_transceiver.py] (class [MicroPythonI2cTransceiver]),
    followed by the properties of the specification that concern them.

    Python is dynamically typed and the connection inspects what the
    transceiver hands back at run time (tuple unpacking, [==] on the status,
    [isinstance] on the response), so these values are modelled in a small
    universe of Python values.  What the connection only passes along (the
    transaction parameters taken from the command) is typed as the
    interfaces document it. *)

From Stdlib Require Import ZArith List String Strings.Byte QArith Lia.
From stdpp Require Import gmap.
Import ListNotations.

Local Open Scope Z_scope.

(** ** Python values *)

(** The exception classes that occur.  All of them derive from [Exception];
    classes deriving from [BaseException] only are outside the model. *)
Inductive exc_class : Type :=
| Exception
| OSError
| TypeError
| ValueError
| IndexError
| I2cTransceiveError
| I2cChannelDisabledError
| I2cNackError
| I2cTimeoutError
| UserError (name : string).

(** [PExc cls args] is the object made by the call [cls(args...)]. *)
#[warnings="-register-all"]
Inductive pyval : Type :=
| PNone
| PBool (b : bool)
| PInt (z : Z)
| PBytes (data : list byte)
| PStr (s : string)
| PTuple (items : list pyval)
| PList (items : list pyval)
| PExc (cls : exc_class) (args : list pyval).

(** A call either returns a value or raises the exception object
    [PExc cls args]. *)
Inductive result (A : Type) : Type :=
| Returned (a : A)
| Raised (cls : exc_class) (args : list pyval).
Arguments Returned {A} a.
Arguments Raised {A} cls args.

Definition result_bind {A B} (r : result A) (k : A -> result B) : result B :=
  match r with
  | Returned a => k a
  | Raised cls args => Raised cls args
  end.

(** A list comprehension whose element expression may raise: elements are
    evaluated left to right and the first exception ends the comprehension. *)
Fixpoint comprehension {A B} (f : A -> result B) (xs : list A) : result (list B) :=
  match xs with
  | [] => Returned []
  | x :: xs' =>
      result_bind (f x) (fun y =>
      result_bind (comprehension f xs') (fun ys => Returned (y :: ys)))
  end.

(** [isinstance(v, list)] *)
Definition isinstance_list (v : pyval) : bool :=
  match v with PList _ => true | _ => false end.

(** [isinstance(v, Exception)] *)
Definition isinstance_Exception (v : pyval) : bool :=
  match v with PExc _ _ => true | _ => false end.

(** [v is True] *)
Definition is_True (v : pyval) : bool :=
  match v with PBool true => true | _ => false end.

(** [v == k] for an integer constant [k]: numbers compare by value ([bool]
    is a subclass of [int]), every other object differs from an integer. *)
Definition eq_int (v : pyval) (k : Z) : bool :=
  match v with
  | PInt z => z =? k
  | PBool b => (if b then 1 else 0) =? k
  | _ => false
  end.

(** Iteration over a value ([for r in v]); a value that is not iterable
    raises [TypeError]. *)
Definition iterate (v : pyval) : result (list pyval) :=
  match v with
  | PTuple items | PList items => Returned items
  | PBytes data => Returned (map (fun b => PInt (Z.of_N (Byte.to_N b))) data)
  | PStr s => Returned (map (fun c => PStr (String c EmptyString)) (list_ascii_of_string s))
  | _ => Raised TypeError []
  end.

(** The assignment [a, b, c = v]: [v] is iterated and must yield exactly
    three items, [ValueError] otherwise. *)
Definition unpack3 (v : pyval) : result (pyval * pyval * pyval) :=
  result_bind (iterate v) (fun items =>
    match items with
    | [a; b; c] => Returned (a, b, c)
    | _ => Raised ValueError []
    end).

(** ** Status codes of the transceiver API version 1

    [connection.py] reads them from [I2cTransceiverV1]; they are the values
    that [MicroPythonI2cTransceiver], an implementation of that interface,
    declares. *)
Definition STATUS_OK : Z := 0.
Definition STATUS_CHANNEL_DISABLED : Z := 1.
Definition STATUS_NACK : Z := 2.
Definition STATUS_TIMEOUT : Z := 3.
Definition STATUS_UNSPECIFIED_ERROR : Z := 4.

(** A raw outcome as the transceiver contract has it: the tuple
    [(status, error, rx_data)] of an integer, an error object or [None],
    and the received bytes. *)
Definition raw_outcome (status : Z) (error : pyval) (rx_data : list byte) : pyval :=
  PTuple [PInt status; error; PBytes rx_data].

(** ** The command interface

    Modelled from the spec: [I2cCommand] ([command.py]) is not among the
    sources; the connection reads the attributes [tx_data], [rx_length],
    [read_delay] and [timeout] and calls [interpret_response], which decodes
    the received data and may raise. *)
Record I2cCommand : Type := {
  tx_data : option (list byte);
  rx_length : option Z;
  read_delay : Q;
  timeout : Q;
  interpret_response : pyval -> result pyval
}.

(** [_interpret_single_response]: an exception object passes through, any
    other response is decoded by the command, and an exception raised while
    doing so is caught and returned. *)
Definition _interpret_single_response (command : I2cCommand) (response : pyval) : pyval :=
  match
    (if isinstance_Exception response
     then Returned response
     else interpret_response command response)
  with
  | Returned v => v
  | Raised cls args => PExc cls args
  end.

Section Connection.

(** The builtin [str], and the state of everything outside the connection
    object (the transceiver and the hardware behind it). *)
Variable str : pyval -> string.
Variable W : Type.

(** The transceiver as the connection uses it: the attributes [API_VERSION]
    and [channel_count] ([None] for a single-channel transceiver) and the
    method [transceive]. *)
Record I2cTransceiver : Type := {
  API_VERSION : Z;
  channel_count : option Z;
  transceive :
    Z -> option (list byte) -> option Z -> Q -> Q -> W -> result pyval * W
}.

(** The attributes of an [I2cConnection] object. *)
Record I2cConnection : Type := {
  _transceiver : I2cTransceiver;
  _always_multi_channel_response : pyval
}.

(** [__init__] *)
Definition init (transceiver : I2cTransceiver) : I2cConnection :=
  {| _transceiver := transceiver;
     _always_multi_channel_response := PBool false |}.

(** A method runs on the connection object and the outside state, may
    change both, and returns or raises. *)
Record state : Type := {
  self : I2cConnection;
  world : W
}.

Definition M (A : Type) : Type := state -> result A * state.

Definition ret {A} (a : A) : M A := fun st => (Returned a, st).
Definition raise {A} (cls : exc_class) (args : list pyval) : M A :=
  fun st => (Raised cls args, st).
Definition bind {A B} (c : M A) (k : A -> M B) : M B :=
  fun st =>
    match c st with
    | (Returned a, st') => k a st'
    | (Raised cls args, st') => (Raised cls args, st')
    end.
Definition lift {A} (r : result A) : M A := fun st => (r, st).

Notation "'do' x <- c ;; k" := (bind c (fun x => k))
  (at level 10, x name, c at level 99, k at level 200).

(** Reading an attribute of [self]. *)
Definition get_transceiver : M I2cTransceiver :=
  fun st => (Returned (_transceiver (self st)), st).
Definition get_always_multi_channel_response : M pyval :=
  fun st => (Returned (_always_multi_channel_response (self st)), st).

(** The property setter of [always_multi_channel_response]. *)
Definition set_always_multi_channel_response (value : pyval) : M unit :=
  fun st =>
    (Returned tt,
     {| self := {| _transceiver := _transceiver (self st);
                   _always_multi_channel_response := value |};
        world := world st |}).

(** The call [self._transceiver.transceive(...)]. *)
Definition call_transceive (slave_address : Z) (tx : option (list byte))
    (rxlen : option Z) (delay tmo : Q) : M pyval :=
  fun st =>
    let '(r, w) :=
      transceive (_transceiver (self st)) slave_address tx rxlen delay tmo (world st) in
    (r, {| self := self st; world := w |}).

(** [_convert_result_v1] *)
Definition _convert_result_v1 (res : pyval) : result pyval :=
  result_bind (unpack3 res) (fun '(status, error, rx_data) =>
    if eq_int status STATUS_OK then
      Returned rx_data
    else if eq_int status STATUS_CHANNEL_DISABLED then
      Returned (PExc I2cChannelDisabledError [error; rx_data])
    else if eq_int status STATUS_NACK then
      Returned (PExc I2cNackError [error; rx_data])
    else if eq_int status STATUS_TIMEOUT then
      Returned (PExc I2cTimeoutError [error; rx_data])
    else
      Returned (PExc I2cTransceiveError [error; rx_data; PStr (str error)])).

(** [_transceive_v1] *)
Definition _transceive_v1 (slave_address : Z) (tx : option (list byte))
    (rxlen : option Z) (delay tmo : Q) : M pyval :=
  do res <- call_transceive slave_address tx rxlen delay tmo ;;
  do t <- get_transceiver ;;
  match channel_count t with
  | Some _ =>
      do items <- lift (iterate res) ;;
      do rs <- lift (comprehension _convert_result_v1 items) ;;
      ret (PList rs)
  | None => lift (_convert_result_v1 res)
  end.

(** The dictionary of [_transceive], from API versions to adapters. *)
Definition api_methods_dict :
    gmap Z (Z -> option (list byte) -> option Z -> Q -> Q -> M pyval) :=
  {[ 1 := _transceive_v1 ]}.

(** The message of the exception of [_transceive]; [format] fills the
    placeholder with [str] of the version. *)
Definition unsupported_version (v : Z) : string :=
  ("The I2C transceiver API version " ++ str (PInt v) ++
   " is not supported. You might need to update the " ++
   "sensirion-i2c-driver package.")%string.

(** [_transceive] *)
Definition _transceive (slave_address : Z) (tx : option (list byte))
    (rxlen : option Z) (delay tmo : Q) : M pyval :=
  do t <- get_transceiver ;;
  match api_methods_dict !! API_VERSION t with
  | Some method => method slave_address tx rxlen delay tmo
  | None => raise Exception [PStr (unsupported_version (API_VERSION t))]
  end.

(** [_interpret_response] *)
Definition _interpret_response (command : I2cCommand) (response : pyval) : M pyval :=
  match response with
  | PList channels =>
      ret (PList (map (_interpret_single_response command) channels))
  | _ =>
      do flag <- get_always_multi_channel_response ;;
      if is_True flag then
        ret (PList [_interpret_single_response command response])
      else
        let response := _interpret_single_response command response in
        match response with
        | PExc cls args => raise cls args
        | _ => ret response
        end
  end.

(** [write] *)
Definition write (slave_address : Z) (command : I2cCommand) : M pyval :=
  do response <- _transceive slave_address (tx_data command) None 0%Q (timeout command) ;;
  _interpret_response command response.

(** [read] *)
Definition read (slave_address : Z) (command : I2cCommand) : M pyval :=
  do response <- _transceive slave_address None (rx_length command) 0%Q (timeout command) ;;
  _interpret_response command response.

(** [execute] *)
Definition execute (slave_address : Z) (command : I2cCommand) : M pyval :=
  do response <- _transceive slave_address (tx_data command) (rx_length command)
                (read_delay command) (timeout command) ;;
  _interpret_response command response.

End Connection.

Arguments API_VERSION {W} _.
Arguments channel_count {W} _.
Arguments transceive {W} _ _ _ _ _ _ _.
Arguments _transceiver {W} _.
Arguments _always_multi_channel_response {W} _.
Arguments self {W} _.
Arguments world {W} _.

(** ** The MicroPython transceiver *)

Module MicroPython.

(** What the transceiver calls: [scan], [writeto] and [readfrom] of
    [machine.I2C], and [time.sleep]. *)
Inductive call : Type :=
| scan
| writeto (addr : Z) (buf : list byte)
| readfrom (addr : Z) (nbytes : Z)
| sleep (seconds : Q).

(** A bus operation returns, or raises [OSError(args...)]. *)
Inductive bus_result (A : Type) : Type :=
| BusOk (a : A)
| BusOSError (args : list pyval).
Arguments BusOk {A} a.
Arguments BusOSError {A} args.

(** A method of the transceiver is a program over these calls: each node is
    one call, continued with what the call answers. *)
Inductive io (A : Type) : Type :=
| Done (a : A)
| Scan (k : list Z -> io A)
| Writeto (addr : Z) (buf : list byte) (k : bus_result Z -> io A)
| Readfrom (addr : Z) (nbytes : Z) (k : bus_result (list byte) -> io A)
| Sleep (seconds : Q) (k : io A).
Arguments Done {A} a.
Arguments Scan {A} k.
Arguments Writeto {A} addr buf k.
Arguments Readfrom {A} addr nbytes k.
Arguments Sleep {A} seconds k.

Fixpoint io_bind {A B} (p : io A) (f : A -> io B) : io B :=
  match p with
  | Done a => f a
  | Scan k => Scan (fun r => io_bind (k r) f)
  | Writeto addr buf k => Writeto addr buf (fun r => io_bind (k r) f)
  | Readfrom addr n k => Readfrom addr n (fun r => io_bind (k r) f)
  | Sleep d k => Sleep d (io_bind k f)
  end.

Notation "'run' x <- c ;; k" := (io_bind c (fun x => k))
  (at level 10, x name, c at level 99, k at level 200).

(** The class constants. *)
Definition API_VERSION : Z := 1.
Definition STATUS_OK : Z := 0.
Definition STATUS_CHANNEL_DISABLED : Z := 1.
Definition STATUS_NACK : Z := 2.
Definition STATUS_TIMEOUT : Z := 3.
Definition STATUS_UNSPECIFIED_ERROR : Z := 4.

(** The attributes of the object: [_addr]; [_i2c] is the bus the calls
    above go to. *)
Record MicroPythonI2cTransceiver : Type := {
  _addr : Z
}.

(** [__init__]: the bus is scanned and the first address found is kept;
    [res[0]] raises [IndexError] on an empty scan. *)
Definition init : io (result MicroPythonI2cTransceiver) :=
  Scan (fun res =>
    match res with
    | a :: _ => Done (Returned {| _addr := a |})
    | [] => Done (Raised IndexError [])
    end).

(** [channel_count] *)
Definition channel_count (self : MicroPythonI2cTransceiver) : option Z := None.

(** The local variables [status], [error] and [rx_data] of [transceive]. *)
Record locals : Type := {
  status : Z;
  error : pyval;
  rx_data : list byte
}.

(** [transceive].  The assertions on the argument types hold by typing. *)
Definition transceive (self : MicroPythonI2cTransceiver) (slave_address : Z)
    (tx_data : option (list byte)) (rx_length : option Z)
    (read_delay timeout : Q) : io pyval :=
  let l := {| status := STATUS_OK; error := PNone; rx_data := [] |} in
  run l <-
    match tx_data with
    | Some buf =>
        Writeto (_addr self) buf (fun r =>
          match r with
          | BusOk _ => Done l
          | BusOSError args =>
              Done {| status := STATUS_UNSPECIFIED_ERROR;
                      error := PExc OSError args;
                      rx_data := rx_data l |}
          end)
    | None => Done l
    end ;;
  run _ <- (if Qlt_le_dec 0 read_delay then Sleep read_delay (Done tt) else Done tt) ;;
  run l <-
    match rx_length with
    | Some n =>
        if status l =? STATUS_OK then
          Readfrom (_addr self) n (fun r =>
            match r with
            | BusOk data =>
                Done {| status := status l; error := error l; rx_data := data |}
            | BusOSError args =>
                Done {| status := STATUS_UNSPECIFIED_ERROR;
                        error := PExc OSError args;
                        rx_data := rx_data l |}
            end)
        else Done l
    | None => Done l
    end ;;
  Done (PTuple [PInt (status l); error l; PBytes (rx_data l)]).

(** *** Running a program on hardware *)

(** The hardware behind [machine.I2C], with its own state. *)
Record hardware (H : Type) : Type := {
  hw_scan : H -> list Z * H;
  hw_writeto : Z -> list byte -> H -> bus_result Z * H;
  hw_readfrom : Z -> Z -> H -> bus_result (list byte) * H;
  hw_sleep : Q -> H -> H
}.
Arguments hw_scan {H} _ _.
Arguments hw_writeto {H} _ _ _ _.
Arguments hw_readfrom {H} _ _ _ _.
Arguments hw_sleep {H} _ _ _.

(** [exec hw p h] runs [p] from the hardware state [h]: the value returned,
    the final hardware state, and the calls made, in order. *)
Fixpoint exec {H A} (hw : hardware H) (p : io A) (h : H) : A * H * list call :=
  match p with
  | Done a => (a, h, [])
  | Scan k =>
      let '(r, h1) := hw_scan hw h in
      let '(a, h2, calls) := exec hw (k r) h1 in
      (a, h2, scan :: calls)
  | Writeto addr buf k =>
      let '(r, h1) := hw_writeto hw addr buf h in
      let '(a, h2, calls) := exec hw (k r) h1 in
      (a, h2, writeto addr buf :: calls)
  | Readfrom addr n k =>
      let '(r, h1) := hw_readfrom hw addr n h in
      let '(a, h2, calls) := exec hw (k r) h1 in
      (a, h2, readfrom addr n :: calls)
  | Sleep d k =>
      let '(a, h2, calls) := exec hw k (hw_sleep hw d h) in
      (a, h2, sleep d :: calls)
  end.

(** The transceiver object as the connection sees it; the outside state is
    the hardware state and the log of the calls made so far. *)
Definition as_transceiver {H} (hw : hardware H) (self : MicroPythonI2cTransceiver)
    : I2cTransceiver (H * list call) :=
  Build_I2cTransceiver (H * list call)
    API_VERSION
    (channel_count self)
    (fun slave_address tx rxlen delay tmo '(h, log) =>
       let '(v, h', calls) :=
         exec hw (transceive self slave_address tx rxlen delay tmo) h in
       (Returned v, (h', log ++ calls))).

End MicroPython.

Arguments Build_I2cConnection {W} _ _.
Arguments Build_state {W} _ _.
Arguments init {W} _.
Arguments ret {W A} _ _.
Arguments raise {W A} _ _ _.
Arguments bind {W A B} _ _ _.
Arguments lift {W A} _ _.
Arguments get_transceiver {W} _.
Arguments get_always_multi_channel_response {W} _.
Arguments set_always_multi_channel_response {W} _ _.
Arguments call_transceive {W} _ _ _ _ _ _.
Arguments _transceive_v1 str {W} _ _ _ _ _ _.
Arguments api_methods_dict str {W}.
Arguments _transceive str {W} _ _ _ _ _ _.
Arguments _interpret_response {W} _ _ _.
Arguments write str {W} _ _ _.
Arguments read str {W} _ _ _.
Arguments execute str {W} _ _ _.

(** ** Vocabulary of the properties *)

(** The three public operations of the connection. *)
Inductive operation : Type := Write | Read | Execute.

Definition invoke (str : pyval -> string) {W} (op : operation)
    : Z -> I2cCommand -> M W pyval :=
  match op with
  | Write => write str
  | Read => read str
  | Execute => execute str
  end.

(** The transaction an operation is expected to hand to the transceiver for
    a command: outgoing payload, read length, read delay, timeout. *)
Record transaction : Type := {
  t_tx_data : option (list byte);
  t_rx_length : option Z;
  t_read_delay : Q;
  t_timeout : Q
}.

Definition transaction_of (op : operation) (command : I2cCommand) : transaction :=
  match op with
  | Write =>
      {| t_tx_data := tx_data command; t_rx_length := None;
         t_read_delay := 0%Q; t_timeout := timeout command |}
  | Read =>
      {| t_tx_data := None; t_rx_length := rx_length command;
         t_read_delay := 0%Q; t_timeout := timeout command |}
  | Execute =>
      {| t_tx_data := tx_data command; t_rx_length := rx_length command;
         t_read_delay := read_delay command; t_timeout := timeout command |}
  end.

(** The transceiver's answer to a transaction. *)
Definition perform {W} (t : I2cTransceiver W) (slave_address : Z)
    (tr : transaction) (w : W) : result pyval * W :=
  transceive t slave_address (t_tx_data tr) (t_rx_length tr)
    (t_read_delay tr) (t_timeout tr) w.

(** The error object the adapter makes for a status other than [STATUS_OK]. *)
Definition mapped_error (str : pyval -> string) (status : Z) (error : pyval)
    (rx_data : list byte) : pyval :=
  if status =? STATUS_CHANNEL_DISABLED then
    PExc I2cChannelDisabledError [error; PBytes rx_data]
  else if status =? STATUS_NACK then
    PExc I2cNackError [error; PBytes rx_data]
  else if status =? STATUS_TIMEOUT then
    PExc I2cTimeoutError [error; PBytes rx_data]
  else
    PExc I2cTransceiveError [error; PBytes rx_data; PStr (str error)].

(** The end of a call that raises its value when it is an exception object
    and returns it otherwise. *)
Definition raise_or_return (v : pyval) : result pyval :=
  match v with
  | PExc cls args => Raised cls args
  | _ => Returned v
  end.

(** A raw outcome given as a triple. *)
Definition outcome (o : Z * pyval * list byte) : pyval :=
  let '(status, error, rx_data) := o in raw_outcome status error rx_data.

(** What the adapter is expected to return for a raw outcome: the received
    bytes on [STATUS_OK], the error object otherwise. *)
Definition converted (str : pyval -> string) (o : Z * pyval * list byte) : pyval :=
  let '(status, error, rx_data) := o in
  if status =? STATUS_OK then PBytes rx_data
  else mapped_error str status error rx_data.

(** ** Decoders with effects

    [interpret_response] is a method of the command object and may do more
    than compute a value.  Here it runs on a state [S] of its own, which it
    can read and change, so that a call of the decoder can be told from no
    call. *)
Module WithEffects.

Definition decoder (S : Type) : Type := pyval -> S -> result pyval * S.

(** [_interpret_single_response] with such a decoder. *)
Definition _interpret_single_response {S} (interpret_response : decoder S)
    (response : pyval) (s : S) : pyval * S :=
  match
    (if isinstance_Exception response
     then (Returned response, s)
     else interpret_response response s)
  with
  | (Returned v, s') => (v, s')
  | (Raised cls args, s') => (PExc cls args, s')
  end.

(** The decoder of a command that has no effect. *)
Definition pure {S} (command : I2cCommand) : decoder S :=
  fun response s => (interpret_response command response, s).

End WithEffects.

(** ** Sample objects *)

(** A decoder that returns the received data and counts its calls. *)
Definition counting_decoder : WithEffects.decoder nat :=
  fun response calls => (Returned response, S calls).

(** A decoder that refuses every response and counts its calls. *)
Definition refusing_decoder : WithEffects.decoder nat :=
  fun response calls => (Raised (UserError "CrcMismatchError") [response], S calls).

(** A [str] for the samples: the text of a string, [None] for [None], and a
    fixed text for anything else. *)
Definition sample_str (v : pyval) : string :=
  match v with
  | PStr s => s
  | PNone => "None"
  | PInt 1 => "1"
  | PInt 2 => "2"
  | _ => "<object>"
  end.

(** A transceiver that answers every transaction with [res] and counts the
    transactions it performed. *)
Definition counting_transceiver (version : Z) (channels : option Z)
    (res : result pyval) : I2cTransceiver nat :=
  Build_I2cTransceiver nat version channels
    (fun _ _ _ _ _ n => (res, S n)).

(** A command that returns the received bytes as they are. *)
Definition raw_command : I2cCommand :=
  {| tx_data := Some [x36; x82]; rx_length := Some 3;
     read_delay := (1 # 1000)%Q; timeout := 0%Q;
     interpret_response := fun data => Returned data |}.

(** A command that decodes the empty payload to [None] and three bytes to
    the integer in the first two, and raises on any other length. *)
Definition word_command : I2cCommand :=
  {| tx_data := Some [x36; x82]; rx_length := Some 3;
     read_delay := (1 # 1000)%Q; timeout := 0%Q;
     interpret_response := fun data =>
       match data with
       | PBytes [] => Returned PNone
       | PBytes [hi; lo; _] =>
           Returned (PInt (256 * Z.of_N (Byte.to_N hi) + Z.of_N (Byte.to_N lo)))
       | _ => Raised (UserError "CrcMismatchError") [data]
       end |}.

(** A bus on which the devices at the listed addresses acknowledge; a read
    delivers zero bytes, and a missing device makes the bus raise
    [OSError(5)]. *)
Definition sample_hardware : MicroPython.hardware (list Z) :=
  {| MicroPython.hw_scan := fun devs => (devs, devs);
     MicroPython.hw_writeto := fun addr buf devs =>
       (if existsb (Z.eqb addr) devs
        then MicroPython.BusOk (Z.of_nat (length buf))
        else MicroPython.BusOSError [PInt 5], devs);
     MicroPython.hw_readfrom := fun addr n devs =>
       (if existsb (Z.eqb addr) devs
        then MicroPython.BusOk (repeat x00 (Z.to_nat n))
        else MicroPython.BusOSError [PInt 5], devs);
     MicroPython.hw_sleep := fun _ devs => devs |}.

(** A bus call that goes to the device at [addr], or to no device. *)
Definition addressed_to (addr : Z) (c : MicroPython.call) : Prop :=
  match c with
  | MicroPython.writeto a _ | MicroPython.readfrom a _ => a = addr
  | MicroPython.scan | MicroPython.sleep _ => True
  end.

(** The calls of the delay between the write and the read. *)
Definition pause (delay : Q) : list MicroPython.call :=
  if Qlt_le_dec 0 delay then [MicroPython.sleep delay] else [].

(** The hardware state after that delay. *)
Definition paused {H} (hw : MicroPython.hardware H) (delay : Q) (h : H) : H :=
  if Qlt_le_dec 0 delay then MicroPython.hw_sleep hw delay h else h.

(** The generic error the adapter makes of an [OSError] caught by the
    MicroPython transceiver. *)
Definition transceive_error (str : pyval -> string) (args : list pyval) : pyval :=
  PExc I2cTransceiveError
    [PExc OSError args; PBytes []; PStr (str (PExc OSError args))].

(** * Properties *)

(** ** The adapter for API version 1 *)

Section AdapterFacts.

Variable str : pyval -> string.

Lemma unpack3_raw_outcome status error rx_data :
  unpack3 (raw_outcome status error rx_data)
  = Returned (PInt status, error, PBytes rx_data).
Proof. reflexivity. Qed.

Lemma convert_ok error rx_data :
  _convert_result_v1 str (raw_outcome STATUS_OK error rx_data)
  = Returned (PBytes rx_data).
Proof. reflexivity. Qed.

Lemma convert_fault status error rx_data :
  status <> STATUS_OK ->
  _convert_result_v1 str (raw_outcome status error rx_data)
  = Returned (mapped_error str status error rx_data).
Proof.
  intros Hne. unfold _convert_result_v1, mapped_error.
  rewrite unpack3_raw_outcome. cbn [result_bind eq_int].
  apply Z.eqb_neq in Hne. rewrite Hne.
  repeat match goal with |- context [?a =? ?b] => destruct (a =? b) end;
    reflexivity.
Qed.

Lemma mapped_error_is_exception status error rx_data :
  isinstance_Exception (mapped_error str status error rx_data) = true.
Proof.
  unfold mapped_error.
  repeat match goal with |- context [?a =? ?b] => destruct (a =? b) end;
    reflexivity.
Qed.

Lemma convert_outcome o :
  _convert_result_v1 str (outcome o) = Returned (converted str o).
Proof.
  destruct o as [[status error] rx_data]. unfold outcome, converted.
  destruct (Z.eqb_spec status STATUS_OK) as [-> | Hne].
  - apply convert_ok.
  - now apply convert_fault.
Qed.

Lemma converted_not_list o : isinstance_list (converted str o) = false.
Proof.
  destruct o as [[status error] rx_data]. unfold converted, mapped_error.
  repeat match goal with |- context [?a =? ?b] => destruct (a =? b) end;
    reflexivity.
Qed.

Lemma comprehension_outcomes os :
  comprehension (_convert_result_v1 str) (map outcome os)
  = Returned (map (converted str) os).
Proof.
  induction os as [| o os IH]; [reflexivity |].
  cbn [map comprehension]. rewrite convert_outcome, IH. reflexivity.
Qed.

(** C3. For every raw outcome [(status, error, rx_data)] the conversion
    returns exactly one value: the received bytes for [STATUS_OK], a
    channel-disabled, not-acknowledged or timeout error for the three
    statuses of these names, and for every other status the generic
    transceive error, which carries the underlying error and its string
    form. *)
Theorem convert_result_v1_total (status : Z) (error : pyval) (rx_data : list byte) :
  let r := _convert_result_v1 str (raw_outcome status error rx_data) in
  (status = STATUS_OK -> r = Returned (PBytes rx_data)) /\
  (status = STATUS_CHANNEL_DISABLED ->
     r = Returned (PExc I2cChannelDisabledError [error; PBytes rx_data])) /\
  (status = STATUS_NACK ->
     r = Returned (PExc I2cNackError [error; PBytes rx_data])) /\
  (status = STATUS_TIMEOUT ->
     r = Returned (PExc I2cTimeoutError [error; PBytes rx_data])) /\
  (status <> STATUS_OK -> status <> STATUS_CHANNEL_DISABLED ->
   status <> STATUS_NACK -> status <> STATUS_TIMEOUT ->
     r = Returned (PExc I2cTransceiveError
                     [error; PBytes rx_data; PStr (str error)])) /\
  (exists v, r = Returned v /\ forall v', r = Returned v' -> v' = v).
Proof.
  cbv zeta. repeat split.
  - intros ->. apply convert_ok.
  - intros ->. reflexivity.
  - intros ->. reflexivity.
  - intros ->. reflexivity.
  - intros H0 H1 H2 H3. rewrite convert_fault by assumption.
    unfold mapped_error.
    apply Z.eqb_neq in H1, H2, H3. now rewrite H1, H2, H3.
  - exists (converted str (status, error, rx_data)).
    change (raw_outcome status error rx_data)
      with (outcome (status, error, rx_data)).
    rewrite convert_outcome. split; [reflexivity | congruence].
Qed.

End AdapterFacts.

(** ** The transaction pipeline *)

Section PipelineFacts.

Variable str : pyval -> string.
Variable W : Type.

Implicit Types (st : state W) (t : I2cTransceiver W) (command : I2cCommand)
  (op : operation) (res r : pyval).

Lemma invoke_unfold op slave_address command st :
  invoke str op slave_address command st
  = bind (_transceive str slave_address
            (t_tx_data (transaction_of op command))
            (t_rx_length (transaction_of op command))
            (t_read_delay (transaction_of op command))
            (t_timeout (transaction_of op command)))
         (_interpret_response command) st.
Proof. destruct op; reflexivity. Qed.

Lemma transceive_supported slave_address tx rxlen delay tmo st :
  API_VERSION (_transceiver (self st)) = 1 ->
  _transceive str slave_address tx rxlen delay tmo st
  = _transceive_v1 str slave_address tx rxlen delay tmo st.
Proof.
  intros Hv. unfold _transceive, bind, get_transceiver, api_methods_dict.
  rewrite Hv, lookup_singleton_eq. reflexivity.
Qed.

Lemma transceive_unsupported slave_address tx rxlen delay tmo st :
  API_VERSION (_transceiver (self st)) <> 1 ->
  _transceive str slave_address tx rxlen delay tmo st
  = (Raised Exception
       [PStr (unsupported_version str (API_VERSION (_transceiver (self st))))],
     st).
Proof.
  intros Hv. unfold _transceive, bind, get_transceiver, api_methods_dict.
  rewrite lookup_singleton_ne by congruence. reflexivity.
Qed.

(** A single-channel transceiver of API version 1: the outcome is converted
    and handed to the interpretation. *)
Lemma invoke_single op slave_address command st res r w' :
  API_VERSION (_transceiver (self st)) = 1 ->
  channel_count (_transceiver (self st)) = None ->
  perform (_transceiver (self st)) slave_address (transaction_of op command) (world st)
  = (Returned res, w') ->
  _convert_result_v1 str res = Returned r ->
  invoke str op slave_address command st
  = _interpret_response command r {| self := self st; world := w' |}.
Proof.
  intros Hv Hcc Hp Hc. rewrite invoke_unfold. unfold bind at 1.
  rewrite transceive_supported by assumption.
  unfold _transceive_v1, bind, call_transceive, get_transceiver, lift.
  unfold perform in Hp. rewrite Hp. cbn [self world].
  rewrite Hcc, Hc. reflexivity.
Qed.

(** A multi-channel transceiver of API version 1: every outcome is
    converted and interpreted on its own. *)
Lemma invoke_multi op slave_address command st res items rs n w' :
  API_VERSION (_transceiver (self st)) = 1 ->
  channel_count (_transceiver (self st)) = Some n ->
  perform (_transceiver (self st)) slave_address (transaction_of op command) (world st)
  = (Returned res, w') ->
  iterate res = Returned items ->
  comprehension (_convert_result_v1 str) items = Returned rs ->
  invoke str op slave_address command st
  = (Returned (PList (map (_interpret_single_response command) rs)),
     {| self := self st; world := w' |}).
Proof.
  intros Hv Hcc Hp Hi Hc. rewrite invoke_unfold. unfold bind at 1.
  rewrite transceive_supported by assumption.
  unfold _transceive_v1, bind, call_transceive, get_transceiver, lift.
  unfold perform in Hp. rewrite Hp. cbn [self world].
  rewrite Hcc, Hi, Hc. reflexivity.
Qed.

(** The transceiver raising ends the call with that exception. *)
Lemma invoke_transceiver_raises op slave_address command st cls args w' :
  API_VERSION (_transceiver (self st)) = 1 ->
  perform (_transceiver (self st)) slave_address (transaction_of op command) (world st)
  = (Raised cls args, w') ->
  invoke str op slave_address command st
  = (Raised cls args, {| self := self st; world := w' |}).
Proof.
  intros Hv Hp. rewrite invoke_unfold. unfold bind at 1.
  rewrite transceive_supported by assumption.
  unfold _transceive_v1, bind, call_transceive, get_transceiver, lift.
  unfold perform in Hp. rewrite Hp. reflexivity.
Qed.

(** The mode policy on a response that is not a list. *)
Lemma interpret_response_raise command r st :
  isinstance_list r = false ->
  is_True (_always_multi_channel_response (self st)) = false ->
  _interpret_response command r st
  = (raise_or_return (_interpret_single_response command r), st).
Proof.
  intros Hl Hf. unfold _interpret_response.
  destruct r; try discriminate Hl;
    unfold bind, get_always_multi_channel_response; rewrite Hf;
    unfold raise_or_return;
    match goal with |- context [_interpret_single_response ?c ?v] =>
      destruct (_interpret_single_response c v) end; reflexivity.
Qed.

Lemma interpret_response_wrap command r st :
  isinstance_list r = false ->
  is_True (_always_multi_channel_response (self st)) = true ->
  _interpret_response command r st
  = (Returned (PList [_interpret_single_response command r]), st).
Proof.
  intros Hl Hf. unfold _interpret_response.
  destruct r; try discriminate Hl;
    unfold bind, get_always_multi_channel_response; rewrite Hf; reflexivity.
Qed.

(** The interpretation leaves the state alone and reads only the flag. *)
Lemma interpret_response_state command r st :
  snd (_interpret_response command r st) = st.
Proof.
  unfold _interpret_response, bind, get_always_multi_channel_response.
  destruct r; try reflexivity;
    destruct (is_True _); try reflexivity;
    match goal with |- context [_interpret_single_response ?c ?v] =>
      destruct (_interpret_single_response c v) end; reflexivity.
Qed.

Lemma interpret_response_value command r st st2 :
  self st2 = self st ->
  fst (_interpret_response command r st2) = fst (_interpret_response command r st).
Proof.
  intros Hs.
  destruct r; try reflexivity;
    unfold _interpret_response, bind, get_always_multi_channel_response;
    rewrite Hs;
    destruct (is_True _); try reflexivity;
    match goal with |- context [_interpret_single_response ?c ?v] =>
      destruct (_interpret_single_response c v) end; reflexivity.
Qed.

(** What follows the transceiver's answer [raw] in [_transceive_v1]. *)
Lemma transceive_v1_unfold slave_address tx rxlen delay tmo st :
  _transceive_v1 str slave_address tx rxlen delay tmo st
  = (let '(raw, w') :=
       transceive (_transceiver (self st)) slave_address tx rxlen delay tmo (world st) in
     (result_bind raw (fun res =>
        match channel_count (_transceiver (self st)) with
        | Some _ =>
            result_bind (iterate res) (fun items =>
            result_bind (comprehension (_convert_result_v1 str) items) (fun rs =>
            Returned (PList rs)))
        | None => _convert_result_v1 str res
        end),
      {| self := self st; world := w' |})).
Proof.
  unfold _transceive_v1, bind, call_transceive, get_transceiver, lift, ret.
  destruct (transceive _ _ _ _ _ _ _) as [[res | cls args] w']; cbn; [| reflexivity].
  destruct (channel_count _); [| reflexivity].
  destruct (iterate res); cbn; [| reflexivity].
  destruct (comprehension _ _); reflexivity.
Qed.

(** With API version 1 the transceiver is called once, with the transaction
    of the operation, and nothing else touches the outside state. *)
Lemma invoke_world op slave_address command st :
  API_VERSION (_transceiver (self st)) = 1 ->
  world (snd (invoke str op slave_address command st))
  = snd (perform (_transceiver (self st)) slave_address
           (transaction_of op command) (world st)).
Proof.
  intros Hv. rewrite invoke_unfold. unfold bind at 1.
  rewrite transceive_supported, transceive_v1_unfold by assumption.
  unfold perform.
  destruct (transceive _ _ _ _ _ _ _) as [raw w'].
  destruct (result_bind raw _); [| reflexivity].
  now rewrite interpret_response_state.
Qed.

(** No operation assigns an attribute of the connection. *)
Lemma invoke_self op slave_address command st :
  self (snd (invoke str op slave_address command st)) = self st.
Proof.
  rewrite invoke_unfold. unfold bind at 1.
  destruct (Z.eq_dec (API_VERSION (_transceiver (self st))) 1) as [Hv | Hv].
  - rewrite transceive_supported, transceive_v1_unfold by assumption.
    destruct (transceive _ _ _ _ _ _ _) as [raw w'].
    destruct (result_bind raw _); [| reflexivity].
    now rewrite interpret_response_state.
  - now rewrite transceive_unsupported.
Qed.

(** The value of a call is a function of the connection's attributes and
    of the transceiver's answer. *)
Lemma invoke_value op slave_address command st st2 :
  self st2 = self st ->
  fst (perform (_transceiver (self st)) slave_address
         (transaction_of op command) (world st2))
  = fst (perform (_transceiver (self st)) slave_address
           (transaction_of op command) (world st)) ->
  fst (invoke str op slave_address command st2)
  = fst (invoke str op slave_address command st).
Proof.
  intros Hs Hraw. rewrite !invoke_unfold. unfold bind.
  destruct (Z.eq_dec (API_VERSION (_transceiver (self st))) 1) as [Hv | Hv].
  - rewrite !transceive_supported, !transceive_v1_unfold by (rewrite ?Hs; assumption).
    rewrite Hs. unfold perform in Hraw.
    destruct (transceive _ _ _ _ _ _ (world st2)) as [raw2 w2].
    destruct (transceive _ _ _ _ _ _ (world st)) as [raw1 w1].
    cbn [fst] in Hraw. subst raw2.
    destruct (result_bind raw1 _); [| reflexivity].
    now apply interpret_response_value.
  - rewrite !transceive_unsupported by (rewrite ?Hs; assumption).
    now rewrite Hs.
Qed.

(** The two modes of a single-channel transceiver. *)
Lemma invoke_single_unset op slave_address command st status error rx_data w' :
  API_VERSION (_transceiver (self st)) = 1 ->
  channel_count (_transceiver (self st)) = None ->
  is_True (_always_multi_channel_response (self st)) = false ->
  perform (_transceiver (self st)) slave_address (transaction_of op command) (world st)
  = (Returned (raw_outcome status error rx_data), w') ->
  invoke str op slave_address command st
  = (raise_or_return
       (_interpret_single_response command (converted str (status, error, rx_data))),
     {| self := self st; world := w' |}).
Proof.
  intros Hv Hcc Hflag Hp.
  erewrite invoke_single by
    (try eassumption; exact (convert_outcome str (status, error, rx_data))).
  apply interpret_response_raise; [apply converted_not_list | assumption].
Qed.

Lemma invoke_single_set op slave_address command st status error rx_data w' :
  API_VERSION (_transceiver (self st)) = 1 ->
  channel_count (_transceiver (self st)) = None ->
  is_True (_always_multi_channel_response (self st)) = true ->
  perform (_transceiver (self st)) slave_address (transaction_of op command) (world st)
  = (Returned (raw_outcome status error rx_data), w') ->
  invoke str op slave_address command st
  = (Returned
       (PList [_interpret_single_response command (converted str (status, error, rx_data))]),
     {| self := self st; world := w' |}).
Proof.
  intros Hv Hcc Hflag Hp.
  erewrite invoke_single by
    (try eassumption; exact (convert_outcome str (status, error, rx_data))).
  apply interpret_response_wrap; [apply converted_not_list | assumption].
Qed.

End PipelineFacts.

(** ** Interpretation of one channel *)

Lemma interpret_single_exception command cls args :
  _interpret_single_response command (PExc cls args) = PExc cls args.
Proof. reflexivity. Qed.

Lemma interpret_single_decoded command r v :
  isinstance_Exception r = false ->
  interpret_response command r = Returned v ->
  _interpret_single_response command r = v.
Proof.
  intros Hr Hd. unfold _interpret_single_response. now rewrite Hr, Hd.
Qed.

Lemma interpret_single_caught command r cls args :
  isinstance_Exception r = false ->
  interpret_response command r = Raised cls args ->
  _interpret_single_response command r = PExc cls args.
Proof.
  intros Hr Hd. unfold _interpret_single_response. now rewrite Hr, Hd.
Qed.

Lemma interpret_single_fault (str : pyval -> string) command status error rx_data :
  _interpret_single_response command (mapped_error str status error rx_data)
  = mapped_error str status error rx_data.
Proof.
  unfold mapped_error.
  repeat match goal with |- context [?a =? ?b] => destruct (a =? b) end;
    reflexivity.
Qed.

(** ** The mode policy *)

Section ModeFacts.

Variable str : pyval -> string.
Variable W : Type.

Implicit Types (st : state W) (command : I2cCommand) (op : operation).

(** C1. Single-channel transceiver, flag false: the call raises the
    interpreted response when it is an exception object and returns it as
    it is otherwise.  So a status other than [STATUS_OK] raises the error
    mapped to it, and a successful decode is returned unwrapped. *)
Theorem single_channel_raises_or_returns
    op slave_address command st status error rx_data w' :
  API_VERSION (_transceiver (self st)) = 1 ->
  channel_count (_transceiver (self st)) = None ->
  _always_multi_channel_response (self st) = PBool false ->
  perform (_transceiver (self st)) slave_address (transaction_of op command) (world st)
  = (Returned (raw_outcome status error rx_data), w') ->
  let v := _interpret_single_response command (converted str (status, error, rx_data)) in
  let call := invoke str op slave_address command st in
  let st' := {| self := self st; world := w' |} in
  (forall cls args, v = PExc cls args -> call = (Raised cls args, st')) /\
  (isinstance_Exception v = false -> call = (Returned v, st')) /\
  (status <> STATUS_OK ->
     exists cls args, mapped_error str status error rx_data = PExc cls args /\
                      call = (Raised cls args, st')) /\
  (status = STATUS_OK ->
     forall d, interpret_response command (PBytes rx_data) = Returned d ->
               isinstance_Exception d = false -> call = (Returned d, st')).
Proof.
  intros Hv Hcc Hflag Hp v call st'.
  assert (Hcall : call = (raise_or_return v, st')).
  { subst call v st'. apply invoke_single_unset; try assumption.
    now rewrite Hflag. }
  repeat split.
  - intros cls args E. now rewrite Hcall, E.
  - intros E. rewrite Hcall. destruct v; try reflexivity; discriminate E.
  - intros Hne.
    assert (Ev : v = mapped_error str status error rx_data).
    { subst v. unfold converted. apply Z.eqb_neq in Hne. rewrite Hne.
      apply interpret_single_fault. }
    pose proof (mapped_error_is_exception str status error rx_data) as Hexc.
    destruct (mapped_error str status error rx_data) as [| | | | | | |cls args] eqn:Em;
      try discriminate Hexc.
    exists cls, args. split; [reflexivity |]. now rewrite Hcall, Ev.
  - intros -> d Hd Hnot.
    assert (Ev : v = d).
    { subst v. unfold converted. cbn. now apply interpret_single_decoded. }
    rewrite Hcall, Ev. destruct d; try reflexivity; discriminate Hnot.
Qed.

(** C6. Single-channel transceiver, flag true: the call returns the list of
    the one interpreted response and never raises; the element is the
    mapped error on a fault, the caught exception when decoding raised, and
    the decoded value otherwise. *)
Theorem single_channel_flag_set_wraps
    op slave_address command st status error rx_data w' :
  API_VERSION (_transceiver (self st)) = 1 ->
  channel_count (_transceiver (self st)) = None ->
  _always_multi_channel_response (self st) = PBool true ->
  perform (_transceiver (self st)) slave_address (transaction_of op command) (world st)
  = (Returned (raw_outcome status error rx_data), w') ->
  let v := _interpret_single_response command (converted str (status, error, rx_data)) in
  invoke str op slave_address command st
  = (Returned (PList [v]), {| self := self st; world := w' |}) /\
  (status <> STATUS_OK -> v = mapped_error str status error rx_data) /\
  (status = STATUS_OK ->
     forall cls args, interpret_response command (PBytes rx_data) = Raised cls args ->
                      v = PExc cls args) /\
  (status = STATUS_OK ->
     forall d, interpret_response command (PBytes rx_data) = Returned d -> v = d).
Proof.
  intros Hv Hcc Hflag Hp v. repeat split.
  - apply invoke_single_set; try assumption. now rewrite Hflag.
  - intros Hne. subst v. unfold converted. apply Z.eqb_neq in Hne.
    rewrite Hne. apply interpret_single_fault.
  - intros -> cls args Hd. now apply interpret_single_caught.
  - intros -> d Hd. now apply interpret_single_decoded.
Qed.

End ModeFacts.

(** ** Multi-channel transceivers *)

Section MultiChannelFacts.

Variable str : pyval -> string.
Variable W : Type.

Implicit Types (st : state W) (command : I2cCommand) (op : operation).

Lemma invoke_multi_outcomes op slave_address command st os n w' :
  API_VERSION (_transceiver (self st)) = 1 ->
  channel_count (_transceiver (self st)) = Some n ->
  perform (_transceiver (self st)) slave_address (transaction_of op command) (world st)
  = (Returned (PList (map outcome os)), w') ->
  invoke str op slave_address command st
  = (Returned (PList (map (fun o => _interpret_single_response command (converted str o)) os)),
     {| self := self st; world := w' |}).
Proof.
  intros Hv Hcc Hp.
  erewrite invoke_multi; try eassumption.
  - now rewrite map_map.
  - reflexivity.
  - apply comprehension_outcomes.
Qed.

(** C2. Multi-channel transceiver returning [N] raw outcomes: whatever the
    flag, the call returns a list of [N] interpreted responses in channel
    order; the element of a channel that faulted is the mapped error, the
    element of a channel with [STATUS_OK] is the decoded value (or the
    exception caught from the decoder). *)
Theorem multi_channel_isolates_faults
    op slave_address command st (os : list (Z * pyval * list byte)) n w' :
  API_VERSION (_transceiver (self st)) = 1 ->
  channel_count (_transceiver (self st)) = Some n ->
  perform (_transceiver (self st)) slave_address (transaction_of op command) (world st)
  = (Returned (PList (map outcome os)), w') ->
  exists vs : list pyval,
    invoke str op slave_address command st
    = (Returned (PList vs), {| self := self st; world := w' |}) /\
    length vs = length os /\
    forall (i : nat) status error rx_data,
      nth_error os i = Some (status, error, rx_data) ->
      (status <> STATUS_OK ->
         nth_error vs i = Some (mapped_error str status error rx_data)) /\
      (status = STATUS_OK ->
         forall d, interpret_response command (PBytes rx_data) = Returned d ->
                   nth_error vs i = Some d) /\
      (status = STATUS_OK ->
         forall cls args,
           interpret_response command (PBytes rx_data) = Raised cls args ->
           nth_error vs i = Some (PExc cls args)).
Proof.
  intros Hv Hcc Hp.
  exists (map (fun o => _interpret_single_response command (converted str o)) os).
  split; [eapply invoke_multi_outcomes; eassumption |].
  split; [apply length_map |].
  intros i status error rx_data Hi.
  rewrite nth_error_map, Hi. cbn [option_map converted].
  repeat split.
  - intros Hne. apply Z.eqb_neq in Hne. rewrite Hne.
    now rewrite interpret_single_fault.
  - intros -> d Hd. cbn. f_equal. now apply interpret_single_decoded.
  - intros -> cls args Hd. cbn. f_equal. now apply interpret_single_caught.
Qed.

End MultiChannelFacts.

(** ** Unsupported API versions *)

Section VersionFacts.

Variable str : pyval -> string.
Variable W : Type.

(** C4. With a transceiver whose API version is not 1, the only key of the
    adapter dictionary, each of write, read and execute raises the
    exception of [_transceive] and leaves the connection and the outside
    state as they were: the transceiver is not called, whatever the flag. *)
Theorem unsupported_version_raises
    (op : operation) (slave_address : Z) (command : I2cCommand) (st : state W) :
  API_VERSION (_transceiver (self st)) <> 1 ->
  (forall v : Z, api_methods_dict str (W := W) !! v = None <-> v <> 1) /\
  invoke str op slave_address command st
  = (Raised Exception
       [PStr (unsupported_version str (API_VERSION (_transceiver (self st))))],
     st).
Proof.
  intros Hv. split.
  - intros v. unfold api_methods_dict. split.
    + intros Hnone ->. rewrite lookup_singleton_eq in Hnone. discriminate.
    + intros Hne. apply lookup_singleton_ne. congruence.
  - rewrite invoke_unfold. unfold bind.
    now rewrite transceive_unsupported.
Qed.

End VersionFacts.

(** ** Decode failures, writes and repeated reads *)

Section DecodeFacts.

Variable str : pyval -> string.
Variable W : Type.

Implicit Types (st : state W) (command : I2cCommand) (op : operation).

(** C5. An exception object coming from the adapter is returned as it is,
    whatever the command's decoder would do; received bytes are decoded and
    an exception raised by the decoder is caught and becomes the response.
    The mode policy then treats it as it treats a fault reported by the
    transceiver: raised with a single-channel transceiver and the flag
    false, returned in a list otherwise.  The decoder is not called on an
    exception object: for every decoder with effects, its state is left as
    it was; on any other response it is called once, with that response,
    and what it raises is caught with the state it left. *)
Theorem decode_failure_is_captured :
  (forall command cls args,
     _interpret_single_response command (PExc cls args) = PExc cls args) /\
  (forall command rx_data d,
     interpret_response command (PBytes rx_data) = Returned d ->
     _interpret_single_response command (PBytes rx_data) = d) /\
  (forall command rx_data cls args,
     interpret_response command (PBytes rx_data) = Raised cls args ->
     _interpret_single_response command (PBytes rx_data) = PExc cls args) /\
  (forall op slave_address command st error rx_data w' cls args,
     API_VERSION (_transceiver (self st)) = 1 ->
     channel_count (_transceiver (self st)) = None ->
     perform (_transceiver (self st)) slave_address (transaction_of op command) (world st)
     = (Returned (raw_outcome STATUS_OK error rx_data), w') ->
     interpret_response command (PBytes rx_data) = Raised cls args ->
     (_always_multi_channel_response (self st) = PBool false ->
        invoke str op slave_address command st
        = (Raised cls args, {| self := self st; world := w' |})) /\
     (_always_multi_channel_response (self st) = PBool true ->
        invoke str op slave_address command st
        = (Returned (PList [PExc cls args]), {| self := self st; world := w' |}))) /\
  (forall op slave_address command st (os : list (Z * pyval * list byte)) n w'
          (i : nat) error rx_data cls args,
     API_VERSION (_transceiver (self st)) = 1 ->
     channel_count (_transceiver (self st)) = Some n ->
     perform (_transceiver (self st)) slave_address (transaction_of op command) (world st)
     = (Returned (PList (map outcome os)), w') ->
     nth_error os i = Some (STATUS_OK, error, rx_data) ->
     interpret_response command (PBytes rx_data) = Raised cls args ->
     exists vs : list pyval,
       invoke str op slave_address command st
       = (Returned (PList vs), {| self := self st; world := w' |}) /\
       nth_error vs i = Some (PExc cls args)) /\
  (forall (S : Type) (decode : WithEffects.decoder S) cls args (s : S),
     WithEffects._interpret_single_response decode (PExc cls args) s
     = (PExc cls args, s)) /\
  (forall (S : Type) (decode : WithEffects.decoder S) response (s s' : S),
     isinstance_Exception response = false ->
     (forall d, decode response s = (Returned d, s') ->
        WithEffects._interpret_single_response decode response s = (d, s')) /\
     (forall cls args, decode response s = (Raised cls args, s') ->
        WithEffects._interpret_single_response decode response s
        = (PExc cls args, s'))) /\
  (forall (S : Type) command response (s : S),
     WithEffects._interpret_single_response (WithEffects.pure command) response s
     = (_interpret_single_response command response, s)).
Proof.
  split; [| split; [| split; [| split; [| split; [| split; [| split]]]]]].
  - intros. apply interpret_single_exception.
  - intros command rx_data d Hd. now apply interpret_single_decoded.
  - intros command rx_data cls args Hd. now apply interpret_single_caught.
  - intros op slave_address command st error rx_data w' cls args Hv Hcc Hp Hd.
    assert (Ev : _interpret_single_response command
                   (converted str (STATUS_OK, error, rx_data)) = PExc cls args)
      by now apply interpret_single_caught.
    split; intros Hflag.
    + erewrite invoke_single_unset by (try eassumption; now rewrite Hflag).
      now rewrite Ev.
    + erewrite invoke_single_set by (try eassumption; now rewrite Hflag).
      now rewrite Ev.
  - intros op slave_address command st os n w' i error rx_data cls args
      Hv Hcc Hp Hi Hd.
    eexists. split; [eapply invoke_multi_outcomes; eassumption |].
    rewrite nth_error_map, Hi. cbn. f_equal.
    now apply interpret_single_caught.
  - reflexivity.
  - intros S decode response s s' Hr.
    unfold WithEffects._interpret_single_response. rewrite Hr.
    split; intros; match goal with E : decode _ _ = _ |- _ => now rewrite E end.
  - intros S command response s.
    unfold WithEffects._interpret_single_response, WithEffects.pure,
      _interpret_single_response.
    destruct (isinstance_Exception response); [reflexivity |].
    destruct (interpret_response command response); reflexivity.
Qed.

(** What [write] returns with a single-channel transceiver of API version 1
    that answers [(STATUS_OK, None, b"")] and the flag false: the value the
    command's decoder returns for the empty payload, when that is not an
    exception object; so it is [None] when the decoder returns [None].  The
    transceiver is called with the command's outgoing payload, no read
    length and a read delay of 0. *)
Lemma write_returns_decoded_empty_payload slave_address command st w' :
  API_VERSION (_transceiver (self st)) = 1 ->
  channel_count (_transceiver (self st)) = None ->
  _always_multi_channel_response (self st) = PBool false ->
  transceive (_transceiver (self st)) slave_address
    (tx_data command) None 0%Q (timeout command) (world st)
  = (Returned (raw_outcome STATUS_OK PNone []), w') ->
  (forall d, interpret_response command (PBytes []) = Returned d ->
             isinstance_Exception d = false ->
             write str slave_address command st
             = (Returned d, {| self := self st; world := w' |})) /\
  (interpret_response command (PBytes []) = Returned PNone ->
   write str slave_address command st
   = (Returned PNone, {| self := self st; world := w' |})) /\
  world (snd (write str slave_address command st))
  = snd (transceive (_transceiver (self st)) slave_address
           (tx_data command) None 0%Q (timeout command) (world st)).
Proof.
  intros Hv Hcc Hflag Hp.
  assert (Hw : write str slave_address command st
               = (raise_or_return (_interpret_single_response command (PBytes [])),
                  {| self := self st; world := w' |})).
  { apply (invoke_single_unset str W Write slave_address command st
             STATUS_OK PNone [] w'); try assumption.
    now rewrite Hflag. }
  assert (Hd : forall d, interpret_response command (PBytes []) = Returned d ->
                         isinstance_Exception d = false ->
                         write str slave_address command st
                         = (Returned d, {| self := self st; world := w' |})).
  { intros d Hd Hnot. rewrite Hw.
    rewrite (interpret_single_decoded command (PBytes []) d) by easy.
    destruct d; try reflexivity; discriminate Hnot. }
  split; [exact Hd |]. split.
  - intros Hnone. now apply Hd.
  - exact (invoke_world str W Write slave_address command st Hv).
Qed.

(** C9. When the transceiver answers the second [read] as it answered the
    first, the second [read] gives what the first gave; and no operation
    changes the connection's flag or its transceiver. *)
Theorem read_is_repeatable slave_address command st :
  (let st1 := snd (read str slave_address command st) in
   fst (perform (_transceiver (self st)) slave_address
          (transaction_of Read command) (world st1))
   = fst (perform (_transceiver (self st)) slave_address
            (transaction_of Read command) (world st)) ->
   fst (read str slave_address command st1)
   = fst (read str slave_address command st)) /\
  (forall op,
     _always_multi_channel_response (self (snd (invoke str op slave_address command st)))
     = _always_multi_channel_response (self st) /\
     _transceiver (self (snd (invoke str op slave_address command st)))
     = _transceiver (self st)).
Proof.
  split.
  - intros st1 Hraw.
    apply (invoke_value str W Read slave_address command st st1); [| exact Hraw].
    exact (invoke_self str W Read slave_address command st).
  - intros op. now rewrite invoke_self.
Qed.

End DecodeFacts.

(** ** The MicroPython transceiver *)

Section MicroPythonFacts.

Import MicroPython.

Variable H : Type.
Variable hw : hardware H.

Implicit Types (t : MicroPythonI2cTransceiver) (h : H).

(** [transceive] does not look at [slave_address]. *)
Lemma transceive_any_address t a a' tx rxlen delay tmo :
  MicroPython.transceive t a tx rxlen delay tmo
  = MicroPython.transceive t a' tx rxlen delay tmo.
Proof. reflexivity. Qed.

(** What [transceive] returns is always a raw outcome with a bytes payload. *)
Lemma transceive_returns_raw_outcome t a tx rxlen delay tmo h :
  exists status error data,
    fst (fst (exec hw (MicroPython.transceive t a tx rxlen delay tmo) h))
    = raw_outcome status error data.
Proof.
  unfold MicroPython.transceive.
  destruct tx as [buf |], rxlen as [n |]; cbn;
    repeat match goal with
      | |- context [hw_writeto hw ?a ?b ?x] =>
          destruct (hw_writeto hw a b x) as [[? | ?] ?]; cbn
      | |- context [hw_readfrom hw ?a ?b ?x] =>
          destruct (hw_readfrom hw a b x) as [[? | ?] ?]; cbn
      | |- context [Qlt_le_dec ?a ?b] => destruct (Qlt_le_dec a b); cbn
      end;
    do 3 eexists; reflexivity.
Qed.

(** C10. With both an outgoing payload and a read length, a write that
    raises [OSError] ends the transaction: the only calls are the write
    and, for a positive read delay, the sleep; nothing is read, and the
    outcome is [(STATUS_UNSPECIFIED_ERROR, the OSError, b"")].  Whatever
    happens, the third component of the outcome is a bytes value. *)
Theorem failed_write_skips_read t slave_address buf n delay tmo h args h1 :
  hw_writeto hw (_addr t) buf h = (BusOSError args, h1) ->
  let calls :=
    writeto (_addr t) buf :: (if Qlt_le_dec 0 delay then [sleep delay] else []) in
  exec hw (MicroPython.transceive t slave_address (Some buf) (Some n) delay tmo) h
  = (raw_outcome MicroPython.STATUS_UNSPECIFIED_ERROR (PExc OSError args) [],
     (if Qlt_le_dec 0 delay then hw_sleep hw delay h1 else h1),
     calls) /\
  (forall addr nbytes, ~ In (readfrom addr nbytes) calls) /\
  (forall tx rxlen h0, exists status error data,
     fst (fst (exec hw (MicroPython.transceive t slave_address tx rxlen delay tmo) h0))
     = raw_outcome status error data).
Proof.
  intros Hw calls. subst calls. repeat split.
  - unfold MicroPython.transceive. cbn. rewrite Hw. cbn.
    destruct (Qlt_le_dec 0 delay); reflexivity.
  - intros addr nbytes [Hin | Hin]; [discriminate Hin |].
    destruct (Qlt_le_dec 0 delay); cbn in Hin; [| exact Hin].
    destruct Hin as [Hin | []]. discriminate Hin.
  - intros tx rxlen h0. apply transceive_returns_raw_outcome.
Qed.

End MicroPythonFacts.

(** C8. The bus calls of [transceive] go to [_addr], the first address the
    scan of [__init__] found, and not to [slave_address]: on a bus with
    devices at 0x44 and 0x62, a transaction for 0x62 writes to and reads
    from 0x44, also when it is made through [I2cConnection.execute]. *)
Theorem transceive_uses_first_scanned_address :
  MicroPython.exec sample_hardware MicroPython.init [68; 98]
  = (Returned {| MicroPython._addr := 68 |}, [68; 98], [MicroPython.scan]) /\
  MicroPython.exec sample_hardware
    (MicroPython.transceive {| MicroPython._addr := 68 |} 98
       (Some [x36; x82]) (Some 3) 0%Q 0%Q) [68; 98]
  = (raw_outcome 0 PNone [x00; x00; x00], [68; 98],
     [MicroPython.writeto 68 [x36; x82]; MicroPython.readfrom 68 3]) /\
  (let connection :=
     init (MicroPython.as_transceiver sample_hardware {| MicroPython._addr := 68 |}) in
   execute sample_str 98 word_command {| self := connection; world := ([68; 98], []) |}
   = (Returned (PInt 0),
      {| self := connection;
         world := ([68; 98],
                   [MicroPython.writeto 68 [x36; x82];
                    MicroPython.sleep (1 # 1000)%Q;
                    MicroPython.readfrom 68 3]) |})).
Proof. repeat split. Qed.

(** ** The properties at sample inputs *)

(** C7. [write] is documented to return [None] with a single-channel
    transceiver, but it returns what the command's decoder makes of the
    empty payload: with a command whose decoder returns the received bytes,
    [write] against a transceiver answering [(STATUS_OK, None, b"")]
    returns [b""], not [None]. *)
Theorem write_returns_decoder_result_not_None :
  let t := counting_transceiver 1 None (Returned (raw_outcome STATUS_OK PNone [])) in
  let st := {| self := init t; world := 0%nat |} in
  API_VERSION t = 1 /\
  channel_count t = None /\
  _always_multi_channel_response (self st) = PBool false /\
  tx_data raw_command = Some [x36; x82] /\
  transceive t 68 (tx_data raw_command) None 0%Q (timeout raw_command) (world st)
  = (Returned (raw_outcome STATUS_OK PNone []), 1%nat) /\
  write sample_str 68 raw_command st
  = (Returned (PBytes []), {| self := init t; world := 1%nat |}) /\
  fst (write sample_str 68 raw_command st) <> Returned PNone.
Proof.
  cbv zeta. repeat (split; [reflexivity |]).
  intros Hnone. vm_compute in Hnone. discriminate Hnone.
Qed.

Lemma convert_result_v1_total_witness :
  (STATUS_NACK = STATUS_NACK /\
   _convert_result_v1 sample_str (raw_outcome STATUS_NACK PNone [])
   = Returned (PExc I2cNackError [PNone; PBytes []])) /\
  (7 <> STATUS_OK /\ 7 <> STATUS_CHANNEL_DISABLED /\
   7 <> STATUS_NACK /\ 7 <> STATUS_TIMEOUT /\
   _convert_result_v1 sample_str (raw_outcome 7 (PStr "bus fault") [x01])
   = Returned (PExc I2cTransceiveError
                 [PStr "bus fault"; PBytes [x01]; PStr "bus fault"])).
Proof.
  split.
  - split; [reflexivity |].
    apply (convert_result_v1_total sample_str STATUS_NACK PNone []). reflexivity.
  - repeat (split; [discriminate |]).
    apply (convert_result_v1_total sample_str 7 (PStr "bus fault") [x01]);
      discriminate.
Defined.

Lemma single_channel_raises_or_returns_witness :
  let t := counting_transceiver 1 None (Returned (raw_outcome STATUS_NACK PNone [])) in
  let st := {| self := init t; world := 0%nat |} in
  API_VERSION (_transceiver (self st)) = 1 /\
  channel_count (_transceiver (self st)) = None /\
  _always_multi_channel_response (self st) = PBool false /\
  perform (_transceiver (self st)) 68 (transaction_of Read word_command) (world st)
  = (Returned (raw_outcome STATUS_NACK PNone []), 1%nat) /\
  invoke sample_str Read 68 word_command st
  = (Raised I2cNackError [PNone; PBytes []], {| self := init t; world := 1%nat |}).
Proof.
  cbv zeta. repeat (split; [reflexivity |]).
  apply (single_channel_raises_or_returns sample_str nat Read 68 word_command
           {| self := init (counting_transceiver 1 None
                              (Returned (raw_outcome STATUS_NACK PNone [])));
              world := 0%nat |}
           STATUS_NACK PNone [] 1%nat
           eq_refl eq_refl eq_refl eq_refl).
  reflexivity.
Defined.

(** The flag is set through its property setter. *)
Lemma single_channel_flag_set_wraps_witness :
  let t := counting_transceiver 1 None (Returned (raw_outcome STATUS_NACK PNone [])) in
  let st := snd (set_always_multi_channel_response (PBool true)
                   {| self := init t; world := 0%nat |}) in
  API_VERSION (_transceiver (self st)) = 1 /\
  channel_count (_transceiver (self st)) = None /\
  _always_multi_channel_response (self st) = PBool true /\
  perform (_transceiver (self st)) 68 (transaction_of Read word_command) (world st)
  = (Returned (raw_outcome STATUS_NACK PNone []), 1%nat) /\
  invoke sample_str Read 68 word_command st
  = (Returned (PList [PExc I2cNackError [PNone; PBytes []]]),
     {| self := Build_I2cConnection t (PBool true); world := 1%nat |}).
Proof.
  cbv zeta. repeat (split; [reflexivity |]).
  apply (single_channel_flag_set_wraps sample_str nat Read 68 word_command
           {| self := Build_I2cConnection
                        (counting_transceiver 1 None
                           (Returned (raw_outcome STATUS_NACK PNone [])))
                        (PBool true);
              world := 0%nat |}
           STATUS_NACK PNone [] 1%nat
           eq_refl eq_refl eq_refl eq_refl).
Defined.

(** Three channels, the second of which does not acknowledge. *)
Lemma multi_channel_isolates_faults_witness :
  let os := [(STATUS_OK, PNone, [x01; x02; x03]);
             (STATUS_NACK, PNone, []);
             (STATUS_OK, PNone, [x00; x10; x00])] in
  let t := counting_transceiver 1 (Some 3) (Returned (PList (map outcome os))) in
  let st := {| self := init t; world := 0%nat |} in
  API_VERSION (_transceiver (self st)) = 1 /\
  channel_count (_transceiver (self st)) = Some 3 /\
  perform (_transceiver (self st)) 68 (transaction_of Execute word_command) (world st)
  = (Returned (PList (map outcome os)), 1%nat) /\
  exists vs : list pyval,
    invoke sample_str Execute 68 word_command st
    = (Returned (PList vs), {| self := init t; world := 1%nat |}) /\
    length vs = 3%nat /\
    nth_error vs 0 = Some (PInt 258) /\
    nth_error vs 1 = Some (PExc I2cNackError [PNone; PBytes []]) /\
    nth_error vs 2 = Some (PInt 16).
Proof.
  cbv zeta. repeat (split; [reflexivity |]).
  destruct (multi_channel_isolates_faults sample_str nat Execute 68 word_command
              {| self := init (counting_transceiver 1 (Some 3)
                   (Returned (PList (map outcome
                      [(STATUS_OK, PNone, [x01; x02; x03]);
                       (STATUS_NACK, PNone, []);
                       (STATUS_OK, PNone, [x00; x10; x00])]))));
                 world := 0%nat |}
              [(STATUS_OK, PNone, [x01; x02; x03]);
               (STATUS_NACK, PNone, []);
               (STATUS_OK, PNone, [x00; x10; x00])]
              3 1%nat eq_refl eq_refl eq_refl) as [vs [Hcall [Hlen Hnth]]].
  exists vs. split; [exact Hcall |]. split; [exact Hlen |].
  split; [| split].
  - destruct (Hnth 0%nat STATUS_OK PNone [x01; x02; x03] eq_refl) as [_ [Hd _]].
    apply Hd; reflexivity.
  - destruct (Hnth 1%nat STATUS_NACK PNone [] eq_refl) as [Hf _].
    apply Hf. discriminate.
  - destruct (Hnth 2%nat STATUS_OK PNone [x00; x10; x00] eq_refl) as [_ [Hd _]].
    apply Hd; reflexivity.
Defined.

Lemma unsupported_version_raises_witness :
  let t := counting_transceiver 2 None (Returned (raw_outcome STATUS_OK PNone [])) in
  let st := {| self := Build_I2cConnection t (PBool true); world := 0%nat |} in
  API_VERSION (_transceiver (self st)) <> 1 /\
  invoke sample_str Execute 68 word_command st
  = (Raised Exception
       [PStr ("The I2C transceiver API version 2 is not supported. " ++
              "You might need to update the sensirion-i2c-driver package.")],
     st).
Proof.
  cbv zeta. split; [discriminate |].
  apply (unsupported_version_raises sample_str nat Execute 68 word_command
           {| self := Build_I2cConnection
                        (counting_transceiver 2 None
                           (Returned (raw_outcome STATUS_OK PNone [])))
                        (PBool true);
              world := 0%nat |}).
  discriminate.
Defined.

(** One received byte, which [word_command] refuses to decode; and the
    counting decoders, which are called on received bytes and not on an
    exception object. *)
Lemma decode_failure_is_captured_witness :
  let t := counting_transceiver 1 None (Returned (raw_outcome STATUS_OK PNone [x01])) in
  let st := {| self := init t; world := 0%nat |} in
  (API_VERSION (_transceiver (self st)) = 1 /\
   channel_count (_transceiver (self st)) = None /\
   perform (_transceiver (self st)) 68 (transaction_of Read word_command) (world st)
   = (Returned (raw_outcome STATUS_OK PNone [x01]), 1%nat) /\
   interpret_response word_command (PBytes [x01])
   = Raised (UserError "CrcMismatchError") [PBytes [x01]] /\
   _always_multi_channel_response (self st) = PBool false /\
   invoke sample_str Read 68 word_command st
   = (Raised (UserError "CrcMismatchError") [PBytes [x01]],
      {| self := init t; world := 1%nat |})) /\
  WithEffects._interpret_single_response counting_decoder
    (PExc I2cNackError [PNone; PBytes []]) 0%nat
  = (PExc I2cNackError [PNone; PBytes []], 0%nat) /\
  (isinstance_Exception (PBytes [x01]) = false /\
   refusing_decoder (PBytes [x01]) 0%nat
   = (Raised (UserError "CrcMismatchError") [PBytes [x01]], 1%nat) /\
   WithEffects._interpret_single_response refusing_decoder (PBytes [x01]) 0%nat
   = (PExc (UserError "CrcMismatchError") [PBytes [x01]], 1%nat)).
Proof.
  cbv zeta.
  destruct (decode_failure_is_captured sample_str nat)
    as [_ [_ [_ [Hmode [_ [Hskip [Hcall _]]]]]]].
  split; [| split].
  - repeat (split; [reflexivity |]).
    apply (Hmode Read 68 word_command
             {| self := init (counting_transceiver 1 None
                                (Returned (raw_outcome STATUS_OK PNone [x01])));
                world := 0%nat |}
             PNone [x01] 1%nat (UserError "CrcMismatchError") [PBytes [x01]]
             eq_refl eq_refl eq_refl eq_refl).
    reflexivity.
  - exact (Hskip nat counting_decoder I2cNackError [PNone; PBytes []] 0%nat).
  - repeat (split; [reflexivity |]).
    exact (proj2 (Hcall nat refusing_decoder (PBytes [x01]) 0%nat 1%nat eq_refl)
             (UserError "CrcMismatchError") [PBytes [x01]] eq_refl).
Defined.

Lemma write_returns_decoded_empty_payload_witness :
  let t := counting_transceiver 1 None (Returned (raw_outcome STATUS_OK PNone [])) in
  let st := {| self := init t; world := 0%nat |} in
  API_VERSION (_transceiver (self st)) = 1 /\
  channel_count (_transceiver (self st)) = None /\
  _always_multi_channel_response (self st) = PBool false /\
  transceive (_transceiver (self st)) 68
    (tx_data word_command) None 0%Q (timeout word_command) (world st)
  = (Returned (raw_outcome STATUS_OK PNone []), 1%nat) /\
  interpret_response word_command (PBytes []) = Returned PNone /\
  write sample_str 68 word_command st
  = (Returned PNone, {| self := init t; world := 1%nat |}).
Proof.
  cbv zeta. repeat (split; [reflexivity |]).
  apply (write_returns_decoded_empty_payload sample_str nat 68 word_command
           {| self := init (counting_transceiver 1 None
                              (Returned (raw_outcome STATUS_OK PNone [])));
              world := 0%nat |}
           1%nat eq_refl eq_refl eq_refl eq_refl).
  reflexivity.
Defined.

Lemma read_is_repeatable_witness :
  let t := counting_transceiver 1 None
             (Returned (raw_outcome STATUS_OK PNone [x01; x02; x03])) in
  let st := {| self := init t; world := 0%nat |} in
  let st1 := snd (read sample_str 68 word_command st) in
  fst (perform (_transceiver (self st)) 68 (transaction_of Read word_command) (world st1))
  = fst (perform (_transceiver (self st)) 68 (transaction_of Read word_command) (world st)) /\
  world st1 = 1%nat /\
  fst (read sample_str 68 word_command st1) = fst (read sample_str 68 word_command st).
Proof.
  cbv zeta. split; [reflexivity |]. split; [reflexivity |].
  apply (read_is_repeatable sample_str nat 68 word_command
           {| self := init (counting_transceiver 1 None
                              (Returned (raw_outcome STATUS_OK PNone [x01; x02; x03])));
              world := 0%nat |}).
  reflexivity.
Defined.

(** The device at 0x44 has gone from the bus: the write raises. *)
Lemma failed_write_skips_read_witness :
  MicroPython.hw_writeto sample_hardware 68 [x36; x82] []
  = (MicroPython.BusOSError [PInt 5], []) /\
  MicroPython.exec sample_hardware
    (MicroPython.transceive {| MicroPython._addr := 68 |} 68
       (Some [x36; x82]) (Some 3) (1 # 1000)%Q 0%Q) []
  = (raw_outcome 4 (PExc OSError [PInt 5]) [], [],
     [MicroPython.writeto 68 [x36; x82]; MicroPython.sleep (1 # 1000)%Q]).
Proof.
  split; [reflexivity |].
  apply (failed_write_skips_read (list Z) sample_hardware
           {| MicroPython._addr := 68 |} 68 [x36; x82] 3 (1 # 1000)%Q 0%Q
           [] [PInt 5] [] eq_refl).
Defined.

(** * Further properties of the connection *)

Section ConnectionEdges.

Variable str : pyval -> string.
Variable W : Type.

Implicit Types (st : state W) (command : I2cCommand) (op : operation).

Lemma not_True_flag (flag : pyval) : flag <> PBool true -> is_True flag = false.
Proof.
  intros Hne. destruct flag as [| [|] | | | | | |]; try reflexivity.
  now elim Hne.
Qed.

(** Only the object [True] switches a single-channel connection to list
    responses: with any other value of the flag (a number, a string) the
    call still raises an exception response and returns any other response
    unwrapped. *)
Theorem flag_other_than_True_keeps_raising
    op slave_address command st status error rx_data w' :
  API_VERSION (_transceiver (self st)) = 1 ->
  channel_count (_transceiver (self st)) = None ->
  _always_multi_channel_response (self st) <> PBool true ->
  perform (_transceiver (self st)) slave_address (transaction_of op command) (world st)
  = (Returned (raw_outcome status error rx_data), w') ->
  invoke str op slave_address command st
  = (raise_or_return
       (_interpret_single_response command (converted str (status, error, rx_data))),
     {| self := self st; world := w' |}) /\
  (status <> STATUS_OK ->
   exists cls args,
     invoke str op slave_address command st
     = (Raised cls args, {| self := self st; world := w' |})).
Proof.
  intros Hv Hcc Hflag Hp.
  assert (Hcall := invoke_single_unset str W op slave_address command st
                     status error rx_data w' Hv Hcc (not_True_flag _ Hflag) Hp).
  split; [exact Hcall |].
  intros Hne. rewrite Hcall. unfold converted.
  apply Z.eqb_neq in Hne. rewrite Hne, interpret_single_fault.
  pose proof (mapped_error_is_exception str status error rx_data) as Hexc.
  destruct (mapped_error str status error rx_data); try discriminate Hexc.
  now eexists _, _.
Qed.

(** A transceiver that declares a channel count must answer with a
    sequence of outcomes: when it answers with one outcome tuple, the tuple
    is iterated, its status is taken for an outcome, and the call raises
    [TypeError]. *)
Theorem channel_count_with_single_outcome_raises
    op slave_address command st n status error rx_data w' :
  API_VERSION (_transceiver (self st)) = 1 ->
  channel_count (_transceiver (self st)) = Some n ->
  perform (_transceiver (self st)) slave_address (transaction_of op command) (world st)
  = (Returned (raw_outcome status error rx_data), w') ->
  invoke str op slave_address command st
  = (Raised TypeError [], {| self := self st; world := w' |}).
Proof.
  intros Hv Hcc Hp. rewrite invoke_unfold. unfold bind at 1.
  rewrite transceive_supported, transceive_v1_unfold by assumption.
  unfold perform in Hp. rewrite Hp, Hcc. reflexivity.
Qed.

(** A transceiver without channel count must answer with one outcome: a
    list that does not have exactly three items cannot be unpacked, and the
    call raises [ValueError]. *)
Theorem single_channel_with_outcome_list_raises
    op slave_address command st (items : list pyval) w' :
  API_VERSION (_transceiver (self st)) = 1 ->
  channel_count (_transceiver (self st)) = None ->
  length items <> 3%nat ->
  perform (_transceiver (self st)) slave_address (transaction_of op command) (world st)
  = (Returned (PList items), w') ->
  invoke str op slave_address command st
  = (Raised ValueError [], {| self := self st; world := w' |}).
Proof.
  intros Hv Hcc Hlen Hp. rewrite invoke_unfold. unfold bind at 1.
  rewrite transceive_supported, transceive_v1_unfold by assumption.
  unfold perform in Hp. rewrite Hp, Hcc.
  destruct items as [| a [| b [| c [| d items]]]]; try reflexivity.
  now elim Hlen.
Qed.

Lemma comprehension_raises {A B} (f : A -> result B) xs ys bad rest cls args :
  comprehension f xs = Returned ys ->
  f bad = Raised cls args ->
  comprehension f (xs ++ bad :: rest) = Raised cls args.
Proof.
  revert ys. induction xs as [| x xs IH]; intros ys Hxs Hbad.
  - cbn. now rewrite Hbad.
  - cbn in Hxs |- *. destruct (f x) as [y | c a]; cbn in Hxs |- *; [| discriminate].
    destruct (comprehension f xs) as [ys' | c a] eqn:E; [| discriminate].
    now rewrite (IH ys' eq_refl Hbad).
Qed.

(** Faults are isolated per channel only when they are reported in the
    status: one outcome of a multi-channel answer that cannot be unpacked
    makes the whole call raise, and the responses of the channels before
    it are lost. *)
Theorem malformed_channel_outcome_raises
    op slave_address command st n (os : list (Z * pyval * list byte))
    (bad : pyval) (rest : list pyval) cls args w' :
  API_VERSION (_transceiver (self st)) = 1 ->
  channel_count (_transceiver (self st)) = Some n ->
  unpack3 bad = Raised cls args ->
  perform (_transceiver (self st)) slave_address (transaction_of op command) (world st)
  = (Returned (PList (map outcome os ++ bad :: rest)), w') ->
  invoke str op slave_address command st
  = (Raised cls args, {| self := self st; world := w' |}).
Proof.
  intros Hv Hcc Hbad Hp. rewrite invoke_unfold. unfold bind at 1.
  rewrite transceive_supported, transceive_v1_unfold by assumption.
  unfold perform in Hp. rewrite Hp, Hcc. cbn [result_bind iterate].
  erewrite comprehension_raises.
  - reflexivity.
  - apply comprehension_outcomes.
  - unfold _convert_result_v1. now rewrite Hbad.
Qed.

(** An exception raised by the transceiver itself ends the call with that
    exception in every mode: with a channel count, and with the flag set,
    too. *)
Theorem transceiver_exception_propagates op slave_address command st cls args w' :
  API_VERSION (_transceiver (self st)) = 1 ->
  perform (_transceiver (self st)) slave_address (transaction_of op command) (world st)
  = (Raised cls args, w') ->
  invoke str op slave_address command st
  = (Raised cls args, {| self := self st; world := w' |}).
Proof.
  intros Hv Hp. rewrite invoke_unfold. unfold bind at 1.
  rewrite transceive_supported, transceive_v1_unfold by assumption.
  unfold perform in Hp. now rewrite Hp.
Qed.

(** [read] and [execute] call the transceiver once: [read] with no
    outgoing payload and no delay, [execute] with the payload, read length
    and read delay of the command; both with the address they were given
    and the command's timeout.  Nothing else changes the outside state,
    whether the call returns or raises. *)
Theorem read_and_execute_call_transceiver_once slave_address command st :
  API_VERSION (_transceiver (self st)) = 1 ->
  world (snd (read str slave_address command st))
  = snd (transceive (_transceiver (self st)) slave_address
           None (rx_length command) 0%Q (timeout command) (world st)) /\
  world (snd (execute str slave_address command st))
  = snd (transceive (_transceiver (self st)) slave_address
           (tx_data command) (rx_length command) (read_delay command)
           (timeout command) (world st)).
Proof.
  intros Hv. split.
  - exact (invoke_world str W Read slave_address command st Hv).
  - exact (invoke_world str W Execute slave_address command st Hv).
Qed.

End ConnectionEdges.

(** * Further properties of the MicroPython transceiver *)

(** Case analysis on the delay and on every answer of the bus. *)
Ltac bus_cases :=
  repeat match goal with
    | |- context [MicroPython.hw_writeto ?hw ?a ?b ?x] =>
        destruct (MicroPython.hw_writeto hw a b x) as [[? | ?] ?]; cbn
    | |- context [MicroPython.hw_readfrom ?hw ?a ?b ?x] =>
        destruct (MicroPython.hw_readfrom hw a b x) as [[? | ?] ?]; cbn
    | |- context [Qlt_le_dec ?a ?b] => destruct (Qlt_le_dec a b); cbn
    end.

Section MicroPythonEdges.

Import MicroPython.

Variable H : Type.
Variable hw : hardware H.

Implicit Types (t : MicroPythonI2cTransceiver) (h : H).

(** The transceiver is created on the first address the scan reports, and
    creating it on a bus where the scan finds no device raises
    [IndexError]. *)
Theorem init_keeps_first_scanned_address h :
  (forall a rest h', hw_scan hw h = (a :: rest, h') ->
     exec hw MicroPython.init h = (Returned {| _addr := a |}, h', [scan])) /\
  (forall h', hw_scan hw h = ([], h') ->
     exec hw MicroPython.init h = (Raised IndexError [], h', [scan])).
Proof.
  split; intros; unfold MicroPython.init; cbn;
    match goal with E : hw_scan hw h = _ |- _ => rewrite E end; reflexivity.
Qed.

(** Every bus call of a transaction goes to the address kept at creation,
    whatever [slave_address] is, and there are at most three calls. *)
Theorem transceive_calls_go_to_addr t slave_address tx rxlen delay tmo h :
  let calls := snd (exec hw (MicroPython.transceive t slave_address tx rxlen delay tmo) h) in
  Forall (addressed_to (_addr t)) calls /\ (length calls <= 3)%nat.
Proof.
  unfold MicroPython.transceive.
  destruct tx as [buf |], rxlen as [n |]; cbn; bus_cases;
    (split; [repeat constructor | cbn; lia]).
Qed.

(** The outcome of a transaction is either [(STATUS_OK, None, data)] or
    [(STATUS_UNSPECIFIED_ERROR, e, b"")] with [e] the [OSError] of the bus:
    the other status codes are never reported, and a failed transaction
    carries no data. *)
Theorem transceive_outcome_shape t slave_address tx rxlen delay tmo h :
  let v := fst (fst (exec hw (MicroPython.transceive t slave_address tx rxlen delay tmo) h)) in
  (exists data, v = raw_outcome MicroPython.STATUS_OK PNone data) \/
  (exists args,
     v = raw_outcome MicroPython.STATUS_UNSPECIFIED_ERROR (PExc OSError args) []).
Proof.
  unfold MicroPython.transceive.
  destruct tx as [buf |], rxlen as [n |]; cbn; bus_cases;
    solve [left; eexists; reflexivity | right; eexists; reflexivity].
Qed.

(** A transaction whose write is acknowledged: the write, then the delay,
    then the read of [n] bytes on the hardware as the delay left it.  The
    data read is the payload of the outcome; a read that raises [OSError]
    gives [STATUS_UNSPECIFIED_ERROR] with that error and no data. *)
Theorem write_then_delay_then_read t slave_address buf n delay tmo h acks h1 :
  hw_writeto hw (_addr t) buf h = (BusOk acks, h1) ->
  let program := MicroPython.transceive t slave_address (Some buf) (Some n) delay tmo in
  let calls := writeto (_addr t) buf :: pause delay ++ [readfrom (_addr t) n] in
  (forall data h2,
     hw_readfrom hw (_addr t) n (paused hw delay h1) = (BusOk data, h2) ->
     exec hw program h = (raw_outcome MicroPython.STATUS_OK PNone data, h2, calls)) /\
  (forall args h2,
     hw_readfrom hw (_addr t) n (paused hw delay h1) = (BusOSError args, h2) ->
     exec hw program h
     = (raw_outcome MicroPython.STATUS_UNSPECIFIED_ERROR (PExc OSError args) [],
        h2, calls)).
Proof.
  intros Hw program calls. subst program calls.
  unfold MicroPython.transceive, pause, paused.
  split; intros x h2 Hr; cbn; rewrite Hw; cbn;
    destruct (Qlt_le_dec 0 delay); cbn; rewrite Hr; reflexivity.
Qed.

(** A transaction with neither outgoing payload nor read length touches no
    device: it only sleeps for a positive delay and reports success with an
    empty payload. *)
Theorem empty_transaction_touches_no_device t slave_address delay tmo h :
  exec hw (MicroPython.transceive t slave_address None None delay tmo) h
  = (raw_outcome MicroPython.STATUS_OK PNone [], paused hw delay h, pause delay).
Proof.
  unfold MicroPython.transceive, pause, paused. cbn.
  destruct (Qlt_le_dec 0 delay); reflexivity.
Qed.

End MicroPythonEdges.

(** * The connection over the MicroPython transceiver *)

Section ConnectionOverMicroPython.

Variable str : pyval -> string.
Variable H : Type.
Variable hw : MicroPython.hardware H.

Implicit Types (t : MicroPython.MicroPythonI2cTransceiver) (h : H)
  (log : list MicroPython.call) (command : I2cCommand).

(** What a connection over the MicroPython transceiver gets to interpret
    is the received bytes or the generic [I2cTransceiveError] around the
    bus's [OSError]: the adapter never raises and never makes one of the
    channel-disabled, not-acknowledged or timeout errors. *)
Theorem micropython_faults_are_transceive_errors
    t (flag : pyval) slave_address tx rxlen delay tmo h log :
  let connection := Build_I2cConnection (MicroPython.as_transceiver hw t) flag in
  exists r h' calls,
    _transceive str slave_address tx rxlen delay tmo
      {| self := connection; world := (h, log) |}
    = (Returned r, {| self := connection; world := (h', log ++ calls) |}) /\
    ((exists data, r = PBytes data) \/
     (exists args, r = transceive_error str args)).
Proof.
  cbv zeta. rewrite transceive_supported by reflexivity.
  rewrite transceive_v1_unfold.
  unfold MicroPython.as_transceiver, MicroPython.transceive, transceive_error.
  destruct tx as [buf |], rxlen as [n |]; cbn; bus_cases;
    do 3 eexists;
    (split; [reflexivity |]);
    solve [left; eexists; reflexivity | right; eexists; reflexivity].
Qed.

Lemma perform_read t slave_address command n h log :
  rx_length command = Some n ->
  perform (MicroPython.as_transceiver hw t) slave_address
    (transaction_of Read command) (h, log)
  = (let '(r, h1) := MicroPython.hw_readfrom hw (MicroPython._addr t) n h in
     (Returned
        match r with
        | MicroPython.BusOk data => raw_outcome STATUS_OK PNone data
        | MicroPython.BusOSError args =>
            raw_outcome STATUS_UNSPECIFIED_ERROR (PExc OSError args) []
        end,
      (h1, log ++ [MicroPython.readfrom (MicroPython._addr t) n]))).
Proof.
  intros Hn. unfold perform, transaction_of. cbn. rewrite Hn.
  unfold MicroPython.transceive. cbn.
  destruct (Qlt_le_dec 0 0) as [Hlt | _]; [now apply Qlt_irrefl in Hlt |].
  cbn. destruct (MicroPython.hw_readfrom hw _ n h) as [[data | args] h1];
    reflexivity.
Qed.

(** [read] on a connection over the MicroPython transceiver makes one bus
    call, the read of the command's [rx_length] bytes from the kept
    address, without any sleep.  With the flag not [True], the data read is
    decoded and returned (or raised, when the response is an exception),
    and an [OSError] of the bus is raised as [I2cTransceiveError]. *)
Theorem read_over_micropython t (flag : pyval) slave_address command n h log :
  flag <> PBool true ->
  rx_length command = Some n ->
  let connection := Build_I2cConnection (MicroPython.as_transceiver hw t) flag in
  let st := {| self := connection; world := (h, log) |} in
  let calls := [MicroPython.readfrom (MicroPython._addr t) n] in
  (forall data h1,
     MicroPython.hw_readfrom hw (MicroPython._addr t) n h
     = (MicroPython.BusOk data, h1) ->
     read str slave_address command st
     = (raise_or_return (_interpret_single_response command (PBytes data)),
        {| self := connection; world := (h1, log ++ calls) |})) /\
  (forall args h1,
     MicroPython.hw_readfrom hw (MicroPython._addr t) n h
     = (MicroPython.BusOSError args, h1) ->
     read str slave_address command st
     = (Raised I2cTransceiveError
          [PExc OSError args; PBytes []; PStr (str (PExc OSError args))],
        {| self := connection; world := (h1, log ++ calls) |})).
Proof.
  intros Hflag Hn connection st calls.
  pose proof (perform_read t slave_address command n h log Hn) as Hp.
  split; intros x h1 Hr; rewrite Hr in Hp.
  - exact (invoke_single_unset str _ Read slave_address command st
             STATUS_OK PNone x (h1, log ++ calls)
             eq_refl eq_refl (not_True_flag flag Hflag) Hp).
  - exact (invoke_single_unset str _ Read slave_address command st
             STATUS_UNSPECIFIED_ERROR (PExc OSError x) [] (h1, log ++ calls)
             eq_refl eq_refl (not_True_flag flag Hflag) Hp).
Qed.

Lemma perform_execute_failed_write t slave_address command buf n h log args h1 :
  tx_data command = Some buf ->
  rx_length command = Some n ->
  MicroPython.hw_writeto hw (MicroPython._addr t) buf h
  = (MicroPython.BusOSError args, h1) ->
  perform (MicroPython.as_transceiver hw t) slave_address
    (transaction_of Execute command) (h, log)
  = (Returned (raw_outcome STATUS_UNSPECIFIED_ERROR (PExc OSError args) []),
     (paused hw (read_delay command) h1,
      log ++ MicroPython.writeto (MicroPython._addr t) buf
               :: pause (read_delay command))).
Proof.
  intros Hbuf Hn Hw. unfold perform, transaction_of. cbn. rewrite Hbuf, Hn.
  unfold MicroPython.transceive, pause, paused. cbn. rewrite Hw. cbn.
  destruct (Qlt_le_dec 0 (read_delay command)); reflexivity.
Qed.

(** [execute] on a connection over the MicroPython transceiver, when the
    bus raises [OSError] on the write: the device is not read, and the
    connection raises [I2cTransceiveError] around the [OSError], or, with
    the flag [True], returns it as the one element of a list. *)
Theorem execute_failed_write_over_micropython
    t (flag : pyval) slave_address command buf n h log args h1 :
  tx_data command = Some buf ->
  rx_length command = Some n ->
  MicroPython.hw_writeto hw (MicroPython._addr t) buf h
  = (MicroPython.BusOSError args, h1) ->
  let connection := Build_I2cConnection (MicroPython.as_transceiver hw t) flag in
  let st := {| self := connection; world := (h, log) |} in
  let st' :=
    {| self := connection;
       world := (paused hw (read_delay command) h1,
                 log ++ MicroPython.writeto (MicroPython._addr t) buf
                          :: pause (read_delay command)) |} in
  (flag <> PBool true ->
   execute str slave_address command st
   = (Raised I2cTransceiveError
        [PExc OSError args; PBytes []; PStr (str (PExc OSError args))], st')) /\
  (flag = PBool true ->
   execute str slave_address command st
   = (Returned (PList [transceive_error str args]), st')).
Proof.
  intros Hbuf Hn Hw connection st st'.
  pose proof (perform_execute_failed_write t slave_address command buf n h log
                args h1 Hbuf Hn Hw) as Hp.
  split; intros Hflag.
  - exact (invoke_single_unset str _ Execute slave_address command st
             STATUS_UNSPECIFIED_ERROR (PExc OSError args) [] _
             eq_refl eq_refl (not_True_flag flag Hflag) Hp).
  - refine (invoke_single_set str _ Execute slave_address command st
              STATUS_UNSPECIFIED_ERROR (PExc OSError args) [] _
              eq_refl eq_refl _ Hp).
    subst st connection. cbn. now rewrite Hflag.
Qed.

End ConnectionOverMicroPython.

(** * The further properties at sample inputs *)

(** A multi-channel transceiver that has lost its device, with the flag set. *)
Lemma transceiver_exception_propagates_witness :
  let t := counting_transceiver 1 (Some 2) (Raised OSError [PInt 19]) in
  let st := {| self := Build_I2cConnection t (PBool true); world := 0%nat |} in
  API_VERSION (_transceiver (self st)) = 1 /\
  perform (_transceiver (self st)) 68 (transaction_of Execute word_command) (world st)
  = (Raised OSError [PInt 19], 1%nat) /\
  invoke sample_str Execute 68 word_command st
  = (Raised OSError [PInt 19],
     {| self := Build_I2cConnection t (PBool true); world := 1%nat |}).
Proof.
  cbv zeta. repeat (split; [reflexivity |]).
  exact (transceiver_exception_propagates sample_str nat Execute 68 word_command
           {| self := Build_I2cConnection
                        (counting_transceiver 1 (Some 2) (Raised OSError [PInt 19]))
                        (PBool true);
              world := 0%nat |}
           OSError [PInt 19] 1%nat eq_refl eq_refl).
Defined.

(** The flag set to the number 1. *)
Lemma flag_other_than_True_keeps_raising_witness :
  let t := counting_transceiver 1 None (Returned (raw_outcome STATUS_NACK PNone [])) in
  let st := {| self := Build_I2cConnection t (PInt 1); world := 0%nat |} in
  API_VERSION (_transceiver (self st)) = 1 /\
  channel_count (_transceiver (self st)) = None /\
  _always_multi_channel_response (self st) <> PBool true /\
  perform (_transceiver (self st)) 68 (transaction_of Read word_command) (world st)
  = (Returned (raw_outcome STATUS_NACK PNone []), 1%nat) /\
  invoke sample_str Read 68 word_command st
  = (Raised I2cNackError [PNone; PBytes []],
     {| self := Build_I2cConnection t (PInt 1); world := 1%nat |}).
Proof.
  cbv zeta. repeat (split; [reflexivity || discriminate |]).
  refine (proj1 (flag_other_than_True_keeps_raising sample_str nat Read 68 word_command
           {| self := Build_I2cConnection
                        (counting_transceiver 1 None
                           (Returned (raw_outcome STATUS_NACK PNone [])))
                        (PInt 1);
              world := 0%nat |}
           STATUS_NACK PNone [] 1%nat eq_refl eq_refl _ eq_refl)).
  discriminate.
Defined.

Lemma channel_count_with_single_outcome_raises_witness :
  let t := counting_transceiver 1 (Some 2)
             (Returned (raw_outcome STATUS_OK PNone [x01; x02; x03])) in
  let st := {| self := init t; world := 0%nat |} in
  API_VERSION (_transceiver (self st)) = 1 /\
  channel_count (_transceiver (self st)) = Some 2 /\
  perform (_transceiver (self st)) 68 (transaction_of Read word_command) (world st)
  = (Returned (raw_outcome STATUS_OK PNone [x01; x02; x03]), 1%nat) /\
  invoke sample_str Read 68 word_command st
  = (Raised TypeError [], {| self := init t; world := 1%nat |}).
Proof.
  cbv zeta. repeat (split; [reflexivity |]).
  exact (channel_count_with_single_outcome_raises sample_str nat Read 68 word_command
           {| self := init (counting_transceiver 1 (Some 2)
                              (Returned (raw_outcome STATUS_OK PNone [x01; x02; x03])));
              world := 0%nat |}
           2 STATUS_OK PNone [x01; x02; x03] 1%nat eq_refl eq_refl eq_refl).
Defined.

Lemma single_channel_with_outcome_list_raises_witness :
  let items := [raw_outcome STATUS_OK PNone [x01; x02; x03];
                raw_outcome STATUS_OK PNone [x04; x05; x06]] in
  let t := counting_transceiver 1 None (Returned (PList items)) in
  let st := {| self := init t; world := 0%nat |} in
  API_VERSION (_transceiver (self st)) = 1 /\
  channel_count (_transceiver (self st)) = None /\
  length items <> 3%nat /\
  perform (_transceiver (self st)) 68 (transaction_of Read word_command) (world st)
  = (Returned (PList items), 1%nat) /\
  invoke sample_str Read 68 word_command st
  = (Raised ValueError [], {| self := init t; world := 1%nat |}).
Proof.
  cbv zeta. repeat (split; [reflexivity || discriminate |]).
  refine (single_channel_with_outcome_list_raises sample_str nat Read 68 word_command
            {| self := init (counting_transceiver 1 None
                 (Returned (PList [raw_outcome STATUS_OK PNone [x01; x02; x03];
                                   raw_outcome STATUS_OK PNone [x04; x05; x06]])));
               world := 0%nat |}
            [raw_outcome STATUS_OK PNone [x01; x02; x03];
             raw_outcome STATUS_OK PNone [x04; x05; x06]]
            1%nat eq_refl eq_refl _ eq_refl).
  discriminate.
Defined.

(** The second of two channels reports a tuple of two items. *)
Lemma malformed_channel_outcome_raises_witness :
  let os := [(STATUS_OK, PNone, [x01; x02; x03])] in
  let bad := PTuple [PInt 0; PNone] in
  let t := counting_transceiver 1 (Some 2)
             (Returned (PList (map outcome os ++ bad :: []))) in
  let st := {| self := init t; world := 0%nat |} in
  API_VERSION (_transceiver (self st)) = 1 /\
  channel_count (_transceiver (self st)) = Some 2 /\
  unpack3 bad = Raised ValueError [] /\
  perform (_transceiver (self st)) 68 (transaction_of Read word_command) (world st)
  = (Returned (PList (map outcome os ++ bad :: [])), 1%nat) /\
  invoke sample_str Read 68 word_command st
  = (Raised ValueError [], {| self := init t; world := 1%nat |}).
Proof.
  cbv zeta. repeat (split; [reflexivity |]).
  exact (malformed_channel_outcome_raises sample_str nat Read 68 word_command
           {| self := init (counting_transceiver 1 (Some 2)
                (Returned (PList (map outcome [(STATUS_OK, PNone, [x01; x02; x03])]
                                  ++ PTuple [PInt 0; PNone] :: []))));
              world := 0%nat |}
           2 [(STATUS_OK, PNone, [x01; x02; x03])] (PTuple [PInt 0; PNone]) []
           ValueError [] 1%nat eq_refl eq_refl eq_refl eq_refl).
Defined.

Lemma read_and_execute_call_transceiver_once_witness :
  let t := counting_transceiver 1 None (Returned (raw_outcome STATUS_NACK PNone [])) in
  let st := {| self := init t; world := 0%nat |} in
  API_VERSION (_transceiver (self st)) = 1 /\
  world (snd (read sample_str 68 word_command st)) = 1%nat /\
  world (snd (execute sample_str 68 word_command st)) = 1%nat.
Proof.
  cbv zeta. split; [reflexivity |].
  exact (read_and_execute_call_transceiver_once sample_str nat 68 word_command
           {| self := init (counting_transceiver 1 None
                              (Returned (raw_outcome STATUS_NACK PNone [])));
              world := 0%nat |}
           eq_refl).
Defined.

Lemma init_keeps_first_scanned_address_witness :
  (MicroPython.hw_scan sample_hardware [98; 68] = ([98; 68], [98; 68]) /\
   MicroPython.exec sample_hardware MicroPython.init [98; 68]
   = (Returned {| MicroPython._addr := 98 |}, [98; 68], [MicroPython.scan])) /\
  (MicroPython.hw_scan sample_hardware [] = ([], []) /\
   MicroPython.exec sample_hardware MicroPython.init []
   = (Raised IndexError [], [], [MicroPython.scan])).
Proof.
  split; (split; [reflexivity |]).
  - exact (proj1 (init_keeps_first_scanned_address (list Z) sample_hardware [98; 68])
             98 [68] [98; 68] eq_refl).
  - exact (proj2 (init_keeps_first_scanned_address (list Z) sample_hardware [])
             [] eq_refl).
Defined.

Lemma write_then_delay_then_read_witness :
  MicroPython.hw_writeto sample_hardware 68 [x36; x82] [68]
  = (MicroPython.BusOk 2, [68]) /\
  MicroPython.hw_readfrom sample_hardware 68 3
    (paused sample_hardware (1 # 1000)%Q [68])
  = (MicroPython.BusOk [x00; x00; x00], [68]) /\
  MicroPython.exec sample_hardware
    (MicroPython.transceive {| MicroPython._addr := 68 |} 68
       (Some [x36; x82]) (Some 3) (1 # 1000)%Q 0%Q) [68]
  = (raw_outcome 0 PNone [x00; x00; x00], [68],
     [MicroPython.writeto 68 [x36; x82]; MicroPython.sleep (1 # 1000)%Q;
      MicroPython.readfrom 68 3]).
Proof.
  repeat (split; [reflexivity |]).
  exact (proj1 (write_then_delay_then_read (list Z) sample_hardware
                  {| MicroPython._addr := 68 |} 68 [x36; x82] 3 (1 # 1000)%Q 0%Q
                  [68] 2 [68] eq_refl)
           [x00; x00; x00] [68] eq_refl).
Defined.

Lemma read_over_micropython_witness :
  let t := {| MicroPython._addr := 68 |} in
  let connection :=
    Build_I2cConnection (MicroPython.as_transceiver sample_hardware t) (PBool false) in
  PBool false <> PBool true /\
  rx_length word_command = Some 3 /\
  MicroPython.hw_readfrom sample_hardware 68 3 [68]
  = (MicroPython.BusOk [x00; x00; x00], [68]) /\
  read sample_str 98 word_command {| self := connection; world := ([68], []) |}
  = (Returned (PInt 0),
     {| self := connection; world := ([68], [MicroPython.readfrom 68 3]) |}).
Proof.
  cbv zeta. repeat (split; [reflexivity || discriminate |]).
  refine (proj1 (read_over_micropython sample_str (list Z) sample_hardware
                   {| MicroPython._addr := 68 |} (PBool false) 98 word_command 3
                   [68] [] _ eq_refl)
            [x00; x00; x00] [68] eq_refl).
  discriminate.
Defined.

(** The device has gone from the bus when the command is executed. *)
Lemma execute_failed_write_over_micropython_witness :
  let t := {| MicroPython._addr := 68 |} in
  let connection :=
    Build_I2cConnection (MicroPython.as_transceiver sample_hardware t) (PBool false) in
  tx_data word_command = Some [x36; x82] /\
  rx_length word_command = Some 3 /\
  MicroPython.hw_writeto sample_hardware 68 [x36; x82] []
  = (MicroPython.BusOSError [PInt 5], []) /\
  PBool false <> PBool true /\
  execute sample_str 68 word_command {| self := connection; world := ([], []) |}
  = (Raised I2cTransceiveError
       [PExc OSError [PInt 5]; PBytes []; PStr "<object>"],
     {| self := connection;
        world := ([], [MicroPython.writeto 68 [x36; x82];
                       MicroPython.sleep (1 # 1000)%Q]) |}).
Proof.
  cbv zeta. repeat (split; [reflexivity || discriminate |]).
  refine (proj1 (execute_failed_write_over_micropython sample_str (list Z)
                   sample_hardware {| MicroPython._addr := 68 |} (PBool false)
                   68 word_command [x36; x82] 3 [] [] [PInt 5] []
                   eq_refl eq_refl eq_refl) _).
  discriminate.
Defined.
